(** * DevDocs: the discover route and the crawl orchestration of the home page

    A shallow embedding of the two source files of the repository:

    - the Next.js route handler [POST] of [/api/discover]
      (depth validation, pass-through to the backend, result shaping);
    - the two event handlers of the home page, [handleSubmit] and
      [handleCrawlSelected], which keep the collection of discovered pages
      and their per-item status.

    JavaScript values are kept as the handlers see them: a JSON value that
    the code tests for truthiness or converts with [String] and [parseInt]
    is a [JsValue]; a string whose [length] is read is a sequence of UTF-16
    code units; awaited promises resolve or reject; [try]/[catch]/[finally]
    are combinators of a small state-and-exception monad. *)

From Stdlib Require Import ZArith NArith List Bool String Ascii Lia Permutation.
From Stdlib Require Import Decimal DecimalString DecimalPos DecimalZ.
Import ListNotations.

Local Open Scope string_scope.
Local Open Scope list_scope.

#[local] Set Warnings "-register-all".

(* ================================================================= *)
(** ** JavaScript values, strings and the conversions the code calls *)

Module Js.

(** A JavaScript string whose content the code inspects: its UTF-16 code
    units, which is what [s.length], [parseInt] and the truthiness of a
    string look at. *)
Definition code_unit := N.
Definition JsString := list code_unit.

(** The code units of an ASCII literal. *)
Definition lit (s : string) : JsString :=
  map N_of_ascii (list_ascii_of_string s).

(** Decimal digits, most significant first, as code units. *)
Fixpoint uint_units (d : Decimal.uint) : JsString :=
  match d with
  | Nil => []
  | D0 d => 48%N :: uint_units d
  | D1 d => 49%N :: uint_units d
  | D2 d => 50%N :: uint_units d
  | D3 d => 51%N :: uint_units d
  | D4 d => 52%N :: uint_units d
  | D5 d => 53%N :: uint_units d
  | D6 d => 54%N :: uint_units d
  | D7 d => 55%N :: uint_units d
  | D8 d => 56%N :: uint_units d
  | D9 d => 57%N :: uint_units d
  end.

(** A JavaScript number.  [Finite negative s n] is the double that
    [Number::toString] prints from the digit string [s] and the exponent
    [n]: its value is 0.s times 10^n, negated when [negative]; [s] is the
    shortest digit string that identifies the double, so it has neither a
    leading nor a trailing zero, and it is empty for zero.  A JSON literal
    stands for the double it is read as: 999999999999999999999 is read as
    1e21, which is [Finite false (D1 Nil) 22].  [Infinite] is what
    [JSON.parse] makes of a literal beyond the range of doubles, and
    [NotANumber] cannot come out of JSON but can be a depth of the page. *)
Inductive JsNumber : Type :=
| Finite (negative : bool) (s : Decimal.uint) (n : Z)
| Infinite (negative : bool)
| NotANumber.

(** The digits of [d] without its trailing zeros. *)
Fixpoint strip_tail (d : Decimal.uint) : Decimal.uint :=
  match d with
  | Nil => Nil
  | D0 d => match strip_tail d with Nil => Nil | d' => D0 d' end
  | D1 d => D1 (strip_tail d)
  | D2 d => D2 (strip_tail d)
  | D3 d => D3 (strip_tail d)
  | D4 d => D4 (strip_tail d)
  | D5 d => D5 (strip_tail d)
  | D6 d => D6 (strip_tail d)
  | D7 d => D7 (strip_tail d)
  | D8 d => D8 (strip_tail d)
  | D9 d => D9 (strip_tail d)
  end.

(** The integer [z] as a number: its digits without the trailing zeros,
    and as exponent the count of all its digits.  This is the double that
    holds [z] whenever [z] is one of the integers below 2^53 in magnitude,
    which doubles hold exactly. *)
Definition of_Z (z : Z) : JsNumber :=
  match z with
  | Z0 => Finite false Nil 0
  | Zpos p =>
      Finite false (strip_tail (Pos.to_uint p))
        (Z.of_nat (List.length (uint_units (Pos.to_uint p))))
  | Zneg p =>
      Finite true (strip_tail (Pos.to_uint p))
        (Z.of_nat (List.length (uint_units (Pos.to_uint p))))
  end.

(** A value decoded from a JSON request body, or [undefined] for a key the
    body does not have.  An object is the list of its own keys with their
    values, as [JSON.parse] creates them. *)
Inductive JsValue : Type :=
| JsUndefined
| JsNull
| JsBool (b : bool)
| JsNum (x : JsNumber)
| JsStr (s : JsString)
| JsArr (elems : list JsValue)
| JsObj (fields : list (string * JsValue)).

(** The number value of an integer. *)
Definition JsInt (z : Z) : JsValue := JsNum (of_Z z).

(** Some digit of [d] is not zero. *)
Fixpoint nonzero_digits (d : Decimal.uint) : bool :=
  match d with
  | Nil => false
  | D0 d => nonzero_digits d
  | _ => true
  end.

(** [!v] is [negb (truthy v)]: zero and [NaN] are the falsy numbers. *)
Definition truthy (v : JsValue) : bool :=
  match v with
  | JsUndefined | JsNull => false
  | JsBool b => b
  | JsNum (Finite _ s _) => nonzero_digits s
  | JsNum (Infinite _) => true
  | JsNum NotANumber => false
  | JsStr s => match s with [] => false | _ :: _ => true end
  | JsArr _ | JsObj _ => true
  end.

(** [Number::toString(x)] in radix 10.  With [k] the number of digits of
    [s]: an integer of at most 21 digits is printed in full; a number with
    1 to 21 digits before the point is printed with the point; a number
    below 1 and not below 1e-6 is printed as [0.] and zeros; everything
    else is printed with an exponent, the first digit before the point. *)
Definition number_to_string (x : JsNumber) : JsString :=
  match x with
  | NotANumber => lit "NaN"
  | Infinite negative =>
      (if negative then [45%N] else []) ++ lit "Infinity"
  | Finite negative s n =>
      let ds := uint_units s in
      let k := Z.of_nat (List.length ds) in
      match ds with
      | [] => [48%N]
      | d :: more =>
          (if negative then [45%N] else []) ++
          (if ((k <=? n) && (n <=? 21))%Z then
             ds ++ repeat 48%N (Z.to_nat (n - k))
           else if ((0 <? n) && (n <=? 21))%Z then
             firstn (Z.to_nat n) ds ++ 46%N :: skipn (Z.to_nat n) ds
           else if ((-6 <? n) && (n <=? 0))%Z then
             48%N :: 46%N :: repeat 48%N (Z.to_nat (- n)) ++ ds
           else
             (match more with
              | [] => [d]
              | _ :: _ => d :: 46%N :: more
              end) ++
             101%N :: (if (n - 1 <? 0)%Z then 45%N else 43%N)
                   :: uint_units (N.to_uint (Z.to_N (Z.abs (n - 1)))))
      end
  end.

(** The object has an own key [toString].  Its value comes from JSON and
    is not callable, and the inherited [valueOf] returns the object itself,
    so converting the object to a primitive throws a [TypeError]. *)
Definition has_own_toString (fields : list (string * JsValue)) : bool :=
  existsb (fun field => String.eqb (fst field) "toString") fields.

(** [String(v)]; [None] when the conversion throws a [TypeError].  An
    array is the join of its elements with [","], where [null] and
    [undefined] elements print as the empty string; an object without an
    own [toString] key prints as ["[object Object]"]. *)
Fixpoint ToString (v : JsValue) : option JsString :=
  match v with
  | JsUndefined => Some (lit "undefined")
  | JsNull => Some (lit "null")
  | JsBool true => Some (lit "true")
  | JsBool false => Some (lit "false")
  | JsNum x => Some (number_to_string x)
  | JsStr s => Some s
  | JsArr elems =>
      (fix join (l : list JsValue) : option JsString :=
         match l with
         | [] => Some []
         | x :: rest =>
             match (match x with
                    | JsUndefined | JsNull => Some []
                    | _ => ToString x
                    end) with
             | None => None
             | Some sx =>
                 match rest with
                 | [] => Some sx
                 | _ :: _ =>
                     match join rest with
                     | None => None
                     | Some srest => Some (sx ++ 44%N :: srest)
                     end
                 end
             end
         end) elems
  | JsObj fields =>
      if has_own_toString fields then None
      else Some (lit "[object Object]")
  end.

(** The value as [JSON.stringify] writes it and the receiver reads it
    back: a number that is not finite becomes [null], negative zero becomes
    zero, an [undefined] element of an array becomes [null], and a key
    whose value is [undefined] is left out. *)
Fixpoint as_json (v : JsValue) : JsValue :=
  match v with
  | JsNum (Finite _ Nil _) => JsNum (Finite false Nil 0)
  | JsNum (Infinite _) | JsNum NotANumber => JsNull
  | JsArr elems =>
      JsArr (map (fun elem => match elem with
                              | JsUndefined => JsNull
                              | _ => as_json elem
                              end) elems)
  | JsObj fields =>
      JsObj (flat_map (fun field => match field with
                                    | (_, JsUndefined) => []
                                    | (key, value) => [(key, as_json value)]
                                    end) fields)
  | other => other
  end.

(** White space and line terminators, the code units [parseInt] skips at
    the start of its input. *)
Definition is_whitespace (c : code_unit) : bool :=
  ((9 <=? c) && (c <=? 13) || (c =? 32) || (c =? 160) || (c =? 5760)
   || (8192 <=? c) && (c <=? 8202) || (c =? 8232) || (c =? 8233)
   || (c =? 8239) || (c =? 8287) || (c =? 12288) || (c =? 65279))%N.

Fixpoint trimStart (s : JsString) : JsString :=
  match s with
  | c :: rest => if is_whitespace c then trimStart rest else s
  | [] => []
  end.

(** The value of a code unit as a digit: [0-9], then [a-z] or [A-Z] for
    ten and above. *)
Definition digit_value (c : code_unit) : option Z :=
  if ((48 <=? c) && (c <=? 57))%N then Some (Z.of_N c - 48)%Z
  else if ((97 <=? c) && (c <=? 122))%N then Some (Z.of_N c - 87)%Z
  else if ((65 <=? c) && (c <=? 90))%N then Some (Z.of_N c - 55)%Z
  else None.

Definition is_radix_digit (R : Z) (c : code_unit) : bool :=
  match digit_value c with
  | Some d => (d <? R)%Z
  | None => false
  end.

(** The longest prefix made of radix-[R] digits. *)
Fixpoint digit_prefix (R : Z) (s : JsString) : JsString :=
  match s with
  | c :: rest => if is_radix_digit R c then c :: digit_prefix R rest else []
  | [] => []
  end.

(** The integer a digit string denotes, read from the left. *)
Fixpoint digits_value (R : Z) (s : JsString) (acc : Z) : Z :=
  match s with
  | c :: rest =>
      match digit_value c with
      | Some d => digits_value R rest (acc * R + d)%Z
      | None => acc
      end
  | [] => acc
  end.

(** The sign step of [parseInt]: a leading [-] or [+] is consumed. *)
Definition read_sign (str : JsString) : Z * JsString :=
  match str with
  | c :: rest =>
      if (c =? 45)%N then ((-1)%Z, rest)
      else if (c =? 43)%N then (1%Z, rest)
      else (1%Z, str)
  | [] => (1%Z, str)
  end.

(** The radix step of [parseInt] called without a radix: a [0x] or [0X]
    prefix is consumed and selects radix 16, anything else is radix 10. *)
Definition read_radix (str : JsString) : Z * JsString :=
  match str with
  | c0 :: c1 :: rest =>
      if ((c0 =? 48) && ((c1 =? 120) || (c1 =? 88)))%N then (16%Z, rest)
      else (10%Z, str)
  | _ => (10%Z, str)
  end.

(** [parseInt(s)] without a radix argument; [None] is [NaN].  Leading
    white space is skipped, one sign is read, the radix is chosen, and the
    longest digit prefix is the result.  The result is kept as the exact
    integer: the handler only tests it for zero and clamps it into [1, 5],
    and rounding an integer to a double changes neither. *)
Definition parseInt (inputString : JsString) : option Z :=
  let '(sign, str) := read_sign (trimStart inputString) in
  let '(R, str) := read_radix str in
  match digit_prefix R str with
  | [] => None
  | Zs => Some (sign * digits_value R Zs 0)%Z
  end.

(** [x || d] on the result of [parseInt]: [NaN] and zero are falsy. *)
Definition num_or (x : option Z) (d : Z) : Z :=
  match x with
  | None => d
  | Some z => if (z =? 0)%Z then d else z
  end.

(** [s || d] on an optional string: absent and empty are falsy. *)
Definition str_or (x : option string) (d : string) : string :=
  match x with
  | None | Some EmptyString => d
  | Some s => s
  end.

(** A template substitution [${n}] of a non-negative integer. *)
Definition string_of_nat (n : nat) : string :=
  NilZero.string_of_uint (Nat.to_uint n).

(** The text of code units below 256, as in a template substitution of a
    number. *)
Definition string_of_units (l : JsString) : string :=
  string_of_list_ascii (map ascii_of_N l).

(** A value caught by [catch]: an [Error] (or a subclass such as
    [TypeError]) with the properties the handlers read, or something that
    is not an [Error]. *)
Inductive Thrown : Type :=
| ErrorObject (name message : string) (stack : option string)
| NonError.

(** [new Error(message)]; the handlers that create one read only its
    [message]. *)
Definition new_Error (message : string) : Thrown :=
  ErrorObject "Error" message None.

(** The text and the stack of an error the runtime throws by itself. *)
Record Raised : Type := mkRaised {
  raised_message : string;
  raised_stack : option string
}.

(** The errors of the runtime that the route can run into; what they say
    is the runtime's choice.  [cannot_convert] is the [TypeError] of
    converting an object to a primitive; [status_out_of_range] is the
    [RangeError] and [null_body_status] the [TypeError] of building a
    response with the given status. *)
Record Engine : Type := mkEngine {
  cannot_convert : Raised;
  status_out_of_range : Z -> Raised;
  null_body_status : Z -> Raised
}.

Definition TypeError (r : Raised) : Thrown :=
  ErrorObject "TypeError" (raised_message r) (raised_stack r).

Definition RangeError (r : Raised) : Thrown :=
  ErrorObject "RangeError" (raised_message r) (raised_stack r).

(** An awaited promise: it resolves with a value or rejects. *)
Inductive Awaited (A : Type) : Type :=
| Resolved (a : A)
| Rejected (e : Thrown).

Arguments Resolved {A} a.
Arguments Rejected {A} e.

End Js.

Import Js.

(* ================================================================= *)
(** ** The page and link records *)

Module Types.

(** Modelled from the spec: the declarations of [@/lib/types] are not part
    of the sources at hand.  The lifecycle status of a page or a link is
    one of four values; a link may have no status assigned yet, which is
    why the handlers read it as [link.status || 'pending']. *)
Inductive Status : Type :=
| not_started
| pending
| crawled
| error.

Definition Status_eqb (a b : Status) : bool :=
  match a, b with
  | not_started, not_started | pending, pending
  | crawled, crawled | error, error => true
  | _, _ => false
  end.

Record LinkRef : Type := mkLink {
  href : string;
  link_status : option Status
}.

(** [internalLinks] is optional: the handlers go through it with [?.].
    Whatever else a page or a link carries (a title, a text) is copied as
    it is by the spreads [...page] and [...link] and is never read; only
    the fields the handlers read or write are kept. *)
Record DiscoveredPage : Type := mkPage {
  url : string;
  status : Status;
  internalLinks : option (list LinkRef)
}.

End Types.

Import Types.

(* ================================================================= *)
(** ** The route handler of /api/discover *)

Module Route.

(** The JSON body of the incoming request, as the destructuring
    [{ url, depth = 3 }] sees it: a key the body lacks is [JsUndefined].
    A body that cannot be parsed or destructured at all is a rejected
    [request_json] of [POST]. *)
Record RequestBody : Type := mkRequestBody {
  body_url : JsValue;
  body_depth : JsValue
}.

(** The body [JSON.stringify({ url, depth: validatedDepth })] sent to the
    backend, as the backend reads it. *)
Record BackendRequest : Type := mkBackendRequest {
  req_url : JsValue;
  req_depth : Z
}.

(** The JSON the backend answers with; every key may be missing. *)
Record BackendData : Type := mkBackendData {
  data_error : option string;
  data_pages : option (list DiscoveredPage);
  data_message : option string
}.

(** The answer of the backend.  [resp_json] is the outcome of reading the
    body as an object with [await response.json()]: it is [Rejected] when
    the body is not JSON, and also when it is the JSON [null], whose first
    key the route reads right after and so throws a [TypeError]. *)
Record BackendResponse : Type := mkBackendResponse {
  resp_status : Z;
  resp_json : Awaited BackendData
}.

(** [response.ok]: the status is in the range 200-299. *)
Definition resp_ok (r : BackendResponse) : bool :=
  ((200 <=? resp_status r) && (resp_status r <=? 299))%Z.

(** The object handed to [NextResponse.json]; an absent key is [None]. *)
Record Body : Type := mkBody {
  body_error : option string;
  body_details : option string;
  body_errorType : option string;
  body_pages : option (list DiscoveredPage);
  body_message : option string
}.

Record NextResponse : Type := mkNextResponse {
  res_status : Z;
  res_body : Body
}.

(** A status a response with a body can be built with: within 200-599 and
    not one of the statuses that forbid a body. *)
Definition status_in_range (st : Z) : bool :=
  ((200 <=? st) && (st <=? 599))%Z.

Definition status_forbids_body (st : Z) : bool :=
  ((st =? 101) || (st =? 103) || (st =? 204) || (st =? 205) || (st =? 304))%Z.

(** [NextResponse.json(body, init)]: the status is 200 unless one is
    given; a given status outside 200-599 throws a [RangeError], and one
    that forbids a body throws a [TypeError], since the JSON text is a
    body. *)
Definition json (engine : Engine) (body : Body) (init_status : option Z)
  : Thrown + NextResponse :=
  match init_status with
  | None => inr (mkNextResponse 200%Z body)
  | Some st =>
      if negb (status_in_range st) then
        inl (RangeError (status_out_of_range engine st))
      else if status_forbids_body st then
        inl (TypeError (null_body_status engine st))
      else inr (mkNextResponse st body)
  end.

(** [const { url, depth = 3 } = ...]: the default applies to [undefined]
    only. *)
Definition default_depth (depth : JsValue) : JsValue :=
  match depth with
  | JsUndefined => JsInt 3
  | d => d
  end.

(** [Math.min(5, Math.max(1, parseInt(String(depth)) || 3))]; [None] when
    [String(depth)] throws. *)
Definition validatedDepth (depth : JsValue) : option Z :=
  match ToString depth with
  | None => None
  | Some text => Some (Z.min 5 (Z.max 1 (num_or (parseInt text) 3)))
  end.

(** The [catch] block: whatever was thrown becomes a 500 answer.  500 is
    a status [NextResponse.json] accepts. *)
Definition failure (e : Thrown) : NextResponse :=
  mkNextResponse 500%Z
    (mkBody
       (Some (match e with
              | ErrorObject _ message _ => message
              | NonError => "Failed to discover pages"
              end))
       (match e with ErrorObject _ _ stack => stack | NonError => None end)
       (Some (match e with
              | ErrorObject name _ _ => name
              | NonError => "Unknown"
              end))
       (Some [])
       None).

(** The message of the success answer:
    [data.message || (data.pages?.length === 0 ? 'No pages discovered'
                      : `Found ${data.pages?.length} pages`)]. *)
Definition success_message (data : BackendData) : string :=
  str_or (data_message data)
    (match data_pages data with
     | Some [] => "No pages discovered"
     | Some pages => "Found " ++ string_of_nat (List.length pages) ++ " pages"
     | None => "Found undefined pages"
     end).

(** The [try] block of [POST]: the requests sent to the backend, in
    order, and either the answer returned or what was thrown.
    [request_json] is the outcome of [await request.json()]; [fetch] is the
    backend. *)
Definition POST_try (engine : Engine) (request_json : Awaited RequestBody)
    (fetch : BackendRequest -> Awaited BackendResponse)
  : list BackendRequest * (Thrown + NextResponse) :=
  match request_json with
  | Rejected e => ([], inl e)
  | Resolved body =>
      let url := body_url body in
      let depth := default_depth (body_depth body) in
      if negb (truthy url) then
        ([], json engine (mkBody (Some "URL is required") None None None None)
               (Some 400%Z))
      else
        match validatedDepth depth with
        | None => ([], inl (TypeError (cannot_convert engine)))
        | Some validated =>
            let sent := mkBackendRequest (as_json url) validated in
            match fetch sent with
            | Rejected e => ([sent], inl e)
            | Resolved response =>
                if negb (resp_ok response) then
                  match resp_json response with
                  | Rejected e => ([sent], inl e)
                  | Resolved errorData =>
                      ([sent],
                       json engine
                         (mkBody
                            (Some (str_or (data_error errorData)
                                     "Failed to discover pages"))
                            None None None None)
                         (Some (resp_status response)))
                  end
                else
                  match resp_json response with
                  | Rejected e => ([sent], inl e)
                  | Resolved data =>
                      ([sent],
                       json engine
                         (mkBody None None None
                            (Some (match data_pages data with
                                   | Some pages => pages
                                   | None => []
                                   end))
                            (Some (success_message data)))
                         None)
                  end
            end
        end
  end.

(** [POST(request)]: the requests sent to the backend and the answer of
    the route; what the [try] block throws is answered by the [catch]
    block. *)
Definition POST (engine : Engine) (request_json : Awaited RequestBody)
    (fetch : BackendRequest -> Awaited BackendResponse)
  : list BackendRequest * NextResponse :=
  match POST_try engine request_json fetch with
  | (sent, inr answer) => (sent, answer)
  | (sent, inl e) => (sent, failure e)
  end.

End Route.

Import Route.

(* ================================================================= *)
(** ** The home page: state, notifications and the two handlers *)

Module Page.

Inductive Variant : Type :=
| variant_default
| destructive.

(** One call of [toast]; [variant] is [None] when the call gives none. *)
Record Toast : Type := mkToast {
  title : string;
  description : string;
  variant : option Variant
}.

Record Stats : Type := mkStats {
  subdomainsParsed : nat;
  pagesCrawled : nat;
  dataExtracted : string;
  errorsEncountered : nat
}.

(** The [useState] cells of [Home], and the notifications emitted so far
    (oldest first). *)
Record State : Type := mkState {
  st_url : string;
  isProcessing : bool;
  discoveredPages : list DiscoveredPage;
  isCrawling : bool;
  markdown : JsString;
  stats : Stats;
  toasts : list Toast
}.

(** The state of a freshly mounted page. *)
Definition initial : State :=
  mkState "" false [] false [] (mkStats 0 0 "0 KB" 0) [].

(** *** Handlers as state transformers that may throw *)

Inductive Outcome (A : Type) : Type :=
| Normal (a : A)
| Throws (e : Thrown).

Arguments Normal {A} a.
Arguments Throws {A} e.

Definition M (A : Type) : Type := State -> Outcome A * State.

Definition ret {A} (a : A) : M A := fun s => (Normal a, s).

Definition bind {A B} (m : M A) (k : A -> M B) : M B :=
  fun s =>
    match m s with
    | (Normal a, s') => k a s'
    | (Throws e, s') => (Throws e, s')
    end.

Definition throw {A} (e : Thrown) : M A := fun s => (Throws e, s).

Definition get : M State := fun s => (Normal s, s).

Definition modify (f : State -> State) : M unit := fun s => (Normal tt, f s).

(** [await p]: a rejection is thrown at the point of the [await]. *)
Definition await {A} (p : Awaited A) : M A :=
  match p with
  | Resolved a => ret a
  | Rejected e => throw e
  end.

(** [try { body } catch (e) { handler e }]. *)
Definition try_catch {A} (body : M A) (handler : Thrown -> M A) : M A :=
  fun s =>
    match body s with
    | (Normal a, s') => (Normal a, s')
    | (Throws e, s') => handler e s'
    end.

(** [try { body } finally { cleanup }]: the cleanup runs on both exits and
    the outcome of the body is kept unless the cleanup itself throws. *)
Definition try_finally {A} (body : M A) (cleanup : M unit) : M A :=
  fun s =>
    match body s with
    | (r, s') =>
        match cleanup s' with
        | (Normal _, s'') => (r, s'')
        | (Throws e, s'') => (Throws e, s'')
        end
    end.

Definition when (b : bool) (m : M unit) : M unit :=
  if b then m else ret tt.

Declare Scope handler_scope.
Delimit Scope handler_scope with handler.
Notation "x <- m ;; k" := (bind m (fun x => k))
  (at level 61, m at next level, right associativity) : handler_scope.
Notation "m ;; k" := (bind m (fun _ => k))
  (at level 61, right associativity) : handler_scope.

(** The state setters.  An updater function is applied to the latest
    value, in call order. *)
Definition setUrl (v : string) : M unit :=
  modify (fun s => mkState v (isProcessing s) (discoveredPages s)
                     (isCrawling s) (markdown s) (stats s) (toasts s)).

Definition setIsProcessing (v : bool) : M unit :=
  modify (fun s => mkState (st_url s) v (discoveredPages s)
                     (isCrawling s) (markdown s) (stats s) (toasts s)).

Definition setDiscoveredPages
    (f : list DiscoveredPage -> list DiscoveredPage) : M unit :=
  modify (fun s => mkState (st_url s) (isProcessing s) (f (discoveredPages s))
                     (isCrawling s) (markdown s) (stats s) (toasts s)).

Definition setIsCrawling (v : bool) : M unit :=
  modify (fun s => mkState (st_url s) (isProcessing s) (discoveredPages s)
                     v (markdown s) (stats s) (toasts s)).

Definition setMarkdown (v : JsString) : M unit :=
  modify (fun s => mkState (st_url s) (isProcessing s) (discoveredPages s)
                     (isCrawling s) v (stats s) (toasts s)).

Definition setStats (f : Stats -> Stats) : M unit :=
  modify (fun s => mkState (st_url s) (isProcessing s) (discoveredPages s)
                     (isCrawling s) (markdown s) (f (stats s)) (toasts s)).

Definition toast (t : Toast) : M unit :=
  modify (fun s => mkState (st_url s) (isProcessing s) (discoveredPages s)
                     (isCrawling s) (markdown s) (stats s) (toasts s ++ [t])).

(** *** Helpers on strings and selections *)

(** [selectedUrls.includes(u)]. *)
Definition includes (selectedUrls : list string) (u : string) : bool :=
  existsb (String.eqb u) selectedUrls.

(** [s.includes(sub)] on strings: [sub] occurs somewhere in [s]. *)
Fixpoint string_includes (s sub : string) : bool :=
  String.prefix sub s ||
  match s with
  | EmptyString => false
  | String _ rest => string_includes rest sub
  end.

(** A template substitution [${depth}] of a number. *)
Definition string_of_number (x : JsNumber) : string :=
  string_of_units (number_to_string x).

(** [pages.filter(page => page.status === 'error')]. *)
Definition error_pages (pages : list DiscoveredPage) : list DiscoveredPage :=
  filter (fun page => Status_eqb (status page) error) pages.

(** The link half of a marking pass:
    [{...link, status: selectedUrls.includes(link.href) ? newStatus
                       : link.status || 'pending'}]. *)
Definition markLink (selectedUrls : list string) (newStatus : Status)
    (link : LinkRef) : LinkRef :=
  mkLink (href link)
    (Some (if includes selectedUrls (href link) then newStatus
           else match link_status link with
                | Some s => s
                | None => pending
                end)).

(** The page half of a marking pass:
    [{...page, status: selectedUrls.includes(page.url) ? newStatus
                       : page.status,
      internalLinks: page.internalLinks?.map(...)}]. *)
Definition markPage (selectedUrls : list string) (newStatus : Status)
    (page : DiscoveredPage) : DiscoveredPage :=
  mkPage (url page)
    (if includes selectedUrls (url page) then newStatus else status page)
    (option_map (map (markLink selectedUrls newStatus)) (internalLinks page)).

(** The updater [pages => pages.map(page => ...)] that [handleCrawlSelected]
    passes to [setDiscoveredPages] three times, with ['pending'],
    ['crawled'] and ['error']. *)
Definition markSelected (selectedUrls : list string) (newStatus : Status)
    (pages : list DiscoveredPage) : list DiscoveredPage :=
  map (markPage selectedUrls newStatus) pages.

(** [discoveredPages.filter(page => selectedUrls.includes(page.url))]. *)
Definition filterByUrls (selectedUrls : list string)
    (pages : list DiscoveredPage) : list DiscoveredPage :=
  filter (fun page => includes selectedUrls (url page)) pages.

(** *** The answers of the two endpoints as the page reads them *)

Record DiscoverData : Type := mkDiscoverData {
  d_error : option string;
  d_details : option string;
  d_errorType : option string;
  d_pages : option (list DiscoveredPage)
}.

(** [disc_json] is the outcome of reading the body as an object; it is
    [Rejected] when the body is not JSON or is the JSON [null], whose
    first key the handler reads before it changes any state. *)
Record DiscoverResponse : Type := mkDiscoverResponse {
  disc_ok : bool;
  disc_json : Awaited DiscoverData
}.

(** [links] of the crawl answer is only logged and is left out. *)
Record CrawlData : Type := mkCrawlData {
  c_markdown : option JsString;
  c_error : option string
}.

(** [crawl_json] is read as [disc_json] is. *)
Record CrawlResponse : Type := mkCrawlResponse {
  crawl_ok : bool;
  crawl_json : Awaited CrawlData
}.

(** [if (result.error)]: a present, non-empty string. *)
Definition error_present (e : option string) : bool :=
  match e with
  | None | Some EmptyString => false
  | Some _ => true
  end.

(** [data.markdown || '']. *)
Definition markdown_or_empty (m : option JsString) : JsString :=
  match m with
  | Some s => s
  | None => []
  end.

(** *** The handlers *)

Section Handlers.

(** The collaborators the page imports or calls; their code is outside the
    two source files. *)
Variable validateUrl : string -> bool.
Variable formatBytes : nat -> string.
Variable saveMarkdown : string -> JsString -> Awaited unit.

(** [fetch('/api/discover', {body: {url, depth}})] and
    [fetch(backendUrl + '/api/crawl', {body: {pages}})], as functions of the
    body sent. *)
Variable fetch_discover : string -> JsNumber -> Awaited DiscoverResponse.
Variable fetch_crawl : list DiscoveredPage -> Awaited CrawlResponse.

Local Open Scope handler_scope.

(** The body of the [try] block of [handleSubmit]. *)
Definition discover_body (submittedUrl : string) (depth : JsNumber) : M unit :=
  response <- await (fetch_discover submittedUrl depth) ;;
  data <- await (disc_json response) ;;
  when (negb (disc_ok response))
    (let errorMessage := str_or (d_error data) "Failed to discover pages" in
     let errorType := str_or (d_errorType data) "Unknown" in
     toast (mkToast ("Error: " ++ errorType) errorMessage (Some destructive)) ;;
     throw (new_Error errorMessage)) ;;
  let pages := match d_pages data with Some l => l | None => [] end in
  (if (0 <? List.length pages)%nat then
     let errorPages := error_pages pages in
     when (0 <? List.length errorPages)%nat
       (toast (mkToast "Warning"
                 (string_of_nat (List.length errorPages)
                  ++ " pages encountered errors during discovery")
                 (Some variant_default)))
   else
     toast (mkToast "No Pages Found"
              "The crawler couldn't find any pages to process. This might be due to access restrictions or an invalid URL structure."
              (Some variant_default))) ;;
  setDiscoveredPages (fun _ => pages) ;;
  setStats (fun prev =>
              mkStats (List.length pages) (pagesCrawled prev)
                (dataExtracted prev) (List.length (error_pages pages))) ;;
  when (0 <? List.length pages)%nat
    (toast (mkToast "Pages Discovered"
              ("Found " ++ string_of_nat (List.length pages)
               ++ " related pages at depth " ++ string_of_number depth)
              None)).

(** The [catch] block of [handleSubmit]. *)
Definition discover_catch (err : Thrown) : M unit :=
  match err with
  | ErrorObject _ message _ =>
      if negb (string_includes message "Failed to discover pages") then
        toast (mkToast "Error"
                 (str_or (Some message)
                    "Failed to discover pages. Check the console for more details.")
                 (Some destructive))
      else
        toast (mkToast "Error"
                 "Failed to discover pages. Check the console for more details."
                 (Some destructive))
  | NonError =>
      toast (mkToast "Error"
               "Failed to discover pages. Check the console for more details."
               (Some destructive))
  end.

Definition handleSubmit (submittedUrl : string) (depth : JsNumber) : M unit :=
  if negb (validateUrl submittedUrl) then
    toast (mkToast "Invalid URL"
             "Please enter a valid URL including the protocol (http:// or https://)"
             (Some destructive))
  else
    setUrl submittedUrl ;;
    setIsProcessing true ;;
    setMarkdown [] ;;
    setDiscoveredPages (fun _ => []) ;;
    try_finally
      (try_catch (discover_body submittedUrl depth) discover_catch)
      (setIsProcessing false).

(** The inner [try]/[catch] of [handleCrawlSelected]: saving the markdown
    and, after it, recording the crawl. *)
Definition save_and_record (closure_url : string)
    (selectedUrls : list string) (selectedPages : list DiscoveredPage)
    (result_markdown : JsString) : M unit :=
  try_catch
    (await (saveMarkdown closure_url result_markdown) ;;
     setMarkdown result_markdown ;;
     setStats (fun prev =>
                 mkStats (subdomainsParsed prev) (List.length selectedPages)
                   (formatBytes (List.length result_markdown))
                   (errorsEncountered prev)) ;;
     setDiscoveredPages (markSelected selectedUrls crawled) ;;
     toast (mkToast "Content Saved"
              "Crawled content has been saved and can be loaded again later"
              None))
    (fun _ =>
       toast (mkToast "Error" "Failed to save content for later use"
                (Some destructive))).

(** The body of the outer [try] block of [handleCrawlSelected].
    [closure] is the state the handler was created with: [discoveredPages]
    and [url] are read from it, not from the latest state. *)
Definition crawl_body (closure : State) (selectedUrls : list string)
  : M unit :=
  let selectedPages := filterByUrls selectedUrls (discoveredPages closure) in
  setDiscoveredPages (markSelected selectedUrls pending) ;;
  response <- await (fetch_crawl selectedPages) ;;
  when (negb (crawl_ok response))
    (errorData <- await (crawl_json response) ;;
     throw (new_Error (str_or (c_error errorData) "Failed to crawl pages"))) ;;
  data <- await (crawl_json response) ;;
  let result_markdown := markdown_or_empty (c_markdown data) in
  let result_error := c_error data in
  when (error_present result_error)
    (throw (new_Error (match result_error with Some e => e | None => "" end))) ;;
  save_and_record (st_url closure) selectedUrls selectedPages result_markdown ;;
  toast (mkToast "Crawling Complete"
           "All pages have been crawled and processed" None).

(** The outer [catch] block of [handleCrawlSelected]. *)
Definition crawl_catch (selectedUrls : list string) (err : Thrown) : M unit :=
  setStats (fun prev =>
              mkStats (subdomainsParsed prev) (pagesCrawled prev)
                (dataExtracted prev) (errorsEncountered prev + 1)) ;;
  setDiscoveredPages (markSelected selectedUrls error) ;;
  toast (mkToast "Error"
           (match err with
            | ErrorObject _ message _ => message
            | NonError => "Failed to crawl pages"
            end)
           (Some destructive)).

Definition handleCrawlSelected (selectedUrls : list string) : M unit :=
  closure <- get ;;
  setIsCrawling true ;;
  try_finally
    (try_catch (crawl_body closure selectedUrls) (crawl_catch selectedUrls))
    (setIsCrawling false).

(** The state a handler leaves behind. *)
Definition after (h : M unit) (s : State) : State := snd (h s).

End Handlers.

End Page.

Import Page.

(* ================================================================= *)
(** ** What the specification calls things *)

Module SpecWords.

(** [clamp(x, lo, hi)] of the specification. *)
Definition clamp (x lo hi : Z) : Z := Z.min hi (Z.max lo x).

(** The byte length of a string of the specification, taken as the length
    of its UTF-8 encoding: one byte below U+0080, two below U+0800, four
    for a surrogate pair and three for any other code unit. *)
Fixpoint utf8_byte_length (s : JsString) : nat :=
  match s with
  | [] => 0
  | c :: rest =>
      if (c <? 128)%N then 1 + utf8_byte_length rest
      else if (c <? 2048)%N then 2 + utf8_byte_length rest
      else if ((55296 <=? c) && (c <=? 56319))%N then
        match rest with
        | c' :: rest' =>
            if ((56320 <=? c') && (c' <=? 57343))%N
            then 4 + utf8_byte_length rest'
            else 3 + utf8_byte_length rest
        | [] => 3
        end
      else 3 + utf8_byte_length rest
  end.

(** A code unit that is one of the ten decimal digits. *)
Definition is_decimal (c : code_unit) : Prop := (48 <= c <= 57)%N.

(** White space at the start of a text, skipped. *)
Fixpoint skip_space (t : JsString) : JsString :=
  match t with
  | c :: rest => if is_whitespace c then skip_space rest else t
  | [] => []
  end.

(** The text after its leading white space and one leading sign. *)
Definition after_space_and_sign (t : JsString) : JsString :=
  match skip_space t with
  | c :: rest => if ((c =? 45) || (c =? 43))%N then rest else c :: rest
  | [] => []
  end.

Definition starts_with_decimal_digit (t : JsString) : bool :=
  match t with
  | c :: _ => ((48 <=? c) && (c <=? 57))%N
  | [] => false
  end.

(** A text with no integer at its start: after white space and a sign
    comes no decimal digit. *)
Definition no_leading_integer (t : JsString) : Prop :=
  starts_with_decimal_digit (after_space_and_sign t) = false.

(** A depth that is absent or carries no leading integer: [undefined],
    [null], a boolean, a number that is not finite, an object that prints
    as [[object Object]], or a string or an array whose text has no integer
    at its start. *)
Definition non_numeric (depth : JsValue) : Prop :=
  match depth with
  | JsUndefined | JsNull | JsBool _ => True
  | JsNum (Finite _ _ _) => False
  | JsNum (Infinite _) | JsNum NotANumber => True
  | JsStr s => no_leading_integer s
  | JsArr elems =>
      exists text,
        ToString (JsArr elems) = Some text /\ no_leading_integer text
  | JsObj fields => has_own_toString fields = false
  end.

(** The first digit of a digit string, as a number. *)
Definition leading_digit (d : Decimal.uint) : Z :=
  match d with
  | Nil | D0 _ => 0
  | D1 _ => 1 | D2 _ => 2 | D3 _ => 3 | D4 _ => 4 | D5 _ => 5
  | D6 _ => 6 | D7 _ => 7 | D8 _ => 8 | D9 _ => 9
  end%Z.

(** A text that starts with an integer: white space, at most one sign,
    the digits of [d], whose first is not zero, and then the end of the
    text or something that is not a decimal digit. *)
Definition has_leading_integer (t : JsString) (negative : bool)
    (d : Decimal.uint) : Prop :=
  exists space sign rest,
    t = space ++ sign ++ uint_units d ++ rest /\
    Forall (fun c => is_whitespace c = true) space /\
    (sign = [] /\ negative = false \/
     sign = [43%N] /\ negative = false \/
     sign = [45%N] /\ negative = true) /\
    leading_digit d <> 0%Z /\
    starts_with_decimal_digit rest = false.

(** The integer part of the magnitude of [Finite _ s n] for [n] from 0
    up: 0.s times 10^n, rounded down. *)
Definition integer_part (s : Decimal.uint) (n : Z) : Z :=
  (Z.of_uint s * 10 ^ n / 10 ^ Z.of_nat (List.length (uint_units s)))%Z.

Definition signed (negative : bool) (z : Z) : Z :=
  if negative then (- z)%Z else z.

(** *** The vocabulary of the claims about the page *)

(** The urls of the pages and the hrefs of their links, in order: what a
    marking pass does not change. *)
Definition shape (pages : list DiscoveredPage)
  : list (string * option (list string)) :=
  map (fun p => (url p, option_map (map href) (internalLinks p))) pages.

(** Every page and every link of [pages] that the selection names has
    status [s]. *)
Definition selection_marked (selectedUrls : list string) (s : Status)
    (pages : list DiscoveredPage) : Prop :=
  Forall (fun p =>
            (includes selectedUrls (url p) = true -> status p = s) /\
            forall links, internalLinks p = Some links ->
              Forall (fun l => includes selectedUrls (href l) = true ->
                               link_status l = Some s) links)
    pages.

(** Every link of every page has a status assigned. *)
Definition links_defined (pages : list DiscoveredPage) : Prop :=
  Forall (fun p => forall links, internalLinks p = Some links ->
                   Forall (fun l => link_status l <> None) links)
    pages.

(** What a marking pass with [newStatus] makes of a link: a selected link
    gets [newStatus]; an unselected link keeps an assigned status and gets
    ['pending'] when it had none. *)
Definition link_marked (selectedUrls : list string) (newStatus : Status)
    (l l' : LinkRef) : Prop :=
  href l' = href l /\
  (includes selectedUrls (href l) = true -> link_status l' = Some newStatus) /\
  (includes selectedUrls (href l) = false ->
     forall s, link_status l = Some s -> link_status l' = Some s) /\
  (includes selectedUrls (href l) = false ->
     link_status l = None -> link_status l' = Some pending).

(** What a marking pass with [newStatus] makes of a page. *)
Definition page_marked (selectedUrls : list string) (newStatus : Status)
    (p p' : DiscoveredPage) : Prop :=
  url p' = url p /\
  (includes selectedUrls (url p) = true -> status p' = newStatus) /\
  (includes selectedUrls (url p) = false -> status p' = status p) /\
  match internalLinks p, internalLinks p' with
  | None, None => True
  | Some links, Some links' =>
      Forall2 (link_marked selectedUrls newStatus) links links'
  | _, _ => False
  end.

(** The crawl request failed: the [fetch] rejected (a transport error) or
    the response is not a 2xx one. *)
Definition crawl_request_fails (reply : Awaited CrawlResponse) : Prop :=
  match reply with
  | Rejected _ => True
  | Resolved response => crawl_ok response = false
  end.

(** The discovery request failed: the [fetch] rejected, the response is
    not a 2xx one, or its body cannot be read. *)
Definition discovery_fails (reply : Awaited DiscoverResponse) : Prop :=
  match reply with
  | Rejected _ => True
  | Resolved response =>
      match disc_json response with
      | Rejected _ => True
      | Resolved _ => disc_ok response = false
      end
  end.

(** What the exchange with the crawl endpoint throws into the outer
    [catch], if anything. *)
Definition thrown_by_exchange (reply : Awaited CrawlResponse)
  : option Thrown :=
  match reply with
  | Rejected e => Some e
  | Resolved response =>
      match crawl_json response with
      | Rejected e => Some e
      | Resolved data =>
          if negb (crawl_ok response) then
            Some (new_Error (str_or (c_error data) "Failed to crawl pages"))
          else if error_present (c_error data) then
            Some (new_Error (match c_error data with
                             | Some e => e
                             | None => ""
                             end))
          else None
      end
  end.

(** The markdown of an exchange that did not throw. *)
Definition returned_markdown (reply : Awaited CrawlResponse) : JsString :=
  match reply with
  | Resolved response =>
      match crawl_json response with
      | Resolved data => markdown_or_empty (c_markdown data)
      | Rejected _ => []
      end
  | Rejected _ => []
  end.

(** The state after the failure reconciliation. *)
Definition failed_state (selectedUrls : list string) (e : Thrown)
    (s : State) : State :=
  mkState (st_url s) (isProcessing s)
    (markSelected selectedUrls error
       (markSelected selectedUrls pending (discoveredPages s)))
    false (markdown s)
    (mkStats (subdomainsParsed (stats s)) (pagesCrawled (stats s))
       (dataExtracted (stats s)) (errorsEncountered (stats s) + 1))
    (toasts s ++
     [mkToast "Error"
        (match e with
         | ErrorObject _ message _ => message
         | NonError => "Failed to crawl pages"
         end)
        (Some destructive)]).

(** The state after a crawl whose markdown was saved. *)
Definition saved_state (formatBytes : nat -> string)
    (selectedUrls : list string) (md : JsString) (s : State) : State :=
  mkState (st_url s) (isProcessing s)
    (markSelected selectedUrls crawled
       (markSelected selectedUrls pending (discoveredPages s)))
    false md
    (mkStats (subdomainsParsed (stats s))
       (List.length (filterByUrls selectedUrls (discoveredPages s)))
       (formatBytes (List.length md))
       (errorsEncountered (stats s)))
    (toasts s ++
     [mkToast "Content Saved"
        "Crawled content has been saved and can be loaded again later" None;
      mkToast "Crawling Complete"
        "All pages have been crawled and processed" None]).

(** The state after a crawl whose markdown could not be saved. *)
Definition unsaved_state (selectedUrls : list string) (s : State) : State :=
  mkState (st_url s) (isProcessing s)
    (markSelected selectedUrls pending (discoveredPages s))
    false (markdown s) (stats s)
    (toasts s ++
     [mkToast "Error" "Failed to save content for later use"
        (Some destructive);
      mkToast "Crawling Complete"
        "All pages have been crawled and processed" None]).

(** A markdown made of ASCII code units only. *)
Definition is_ascii (md : JsString) : Prop :=
  Forall (fun c => (c < 128)%N) md.

End SpecWords.

Import SpecWords.

(* ================================================================= *)
(** ** A small discovery result and the answers used in the examples *)

Module Scenario.

Definition url_a : string := "https://a/".
Definition url_b : string := "https://b/".
Definition url_c : string := "https://c/".

(** A link of page [a] that has no status yet. *)
Definition link_b : LinkRef := mkLink url_b None.

Definition page_a : DiscoveredPage := mkPage url_a not_started (Some [link_b]).
Definition page_c : DiscoveredPage := mkPage url_c not_started None.

(** The page after a discovery that found [a] and [c]. *)
Definition discovered : State :=
  mkState "https://docs.example.com" false [page_a; page_c] false []
    (mkStats 2 0 "0 KB" 0) [].

Definition always_valid (candidate : string) : bool := true.

(** A runtime for the examples, with short error texts. *)
Definition node : Engine :=
  mkEngine
    (mkRaised "Cannot convert object to primitive value" None)
    (fun st => mkRaised "status out of range" None)
    (fun st => mkRaised "Invalid response status code" None).

(** A stand-in for [formatBytes]. *)
Definition bytes_label (n : nat) : string := string_of_nat n ++ " Bytes".

Definition save_ok (key : string) (content : JsString) : Awaited unit :=
  Resolved tt.

Definition save_fails (key : string) (content : JsString) : Awaited unit :=
  Rejected (ErrorObject "QuotaExceededError" "quota exceeded" None).

(** The crawl endpoint answers 200 with the markdown ["hello"]. *)
Definition crawl_hello (pages : list DiscoveredPage)
  : Awaited CrawlResponse :=
  Resolved (mkCrawlResponse true
              (Resolved (mkCrawlData (Some (lit "hello")) None))).

(** The crawl endpoint answers with a non-2xx status and an error. *)
Definition crawl_bad_gateway (pages : list DiscoveredPage)
  : Awaited CrawlResponse :=
  Resolved (mkCrawlResponse false
              (Resolved (mkCrawlData None (Some "backend down")))).

(** The crawl endpoint answers 200, with an [error] key in the body. *)
Definition crawl_ok_with_error (pages : list DiscoveredPage)
  : Awaited CrawlResponse :=
  Resolved (mkCrawlResponse true
              (Resolved (mkCrawlData (Some (lit "partial"))
                           (Some "backend down")))).

(** The discover endpoint cannot be reached. *)
Definition discover_unreachable (submittedUrl : string) (depth : JsNumber)
  : Awaited DiscoverResponse :=
  Rejected (ErrorObject "TypeError" "fetch failed" None).

(** The backend of the route answers 200 with an empty [pages] array. *)
Definition backend_finds_nothing (sent : BackendRequest)
  : Awaited BackendResponse :=
  Resolved (mkBackendResponse 200
              (Resolved (mkBackendData None (Some []) None))).

(** A request body for the seed url of the examples. *)
Definition docs_body (depth : JsValue) : RequestBody :=
  mkRequestBody (JsStr (lit "https://docs.example.com")) depth.

Definition backend_unreachable (sent : BackendRequest)
  : Awaited BackendResponse :=
  Rejected (ErrorObject "TypeError" "fetch failed" None).

End Scenario.

Import Scenario.

(* ================================================================= *)
(** ** What the page renders from its state *)

Module View.

(** [isProcessing={isProcessing || isCrawling}], the busy flag handed to
    [ProcessingBlock]. *)
Definition processing_shown (s : State) : bool :=
  isProcessing s || isCrawling s.

(** [isProcessing={isCrawling}], the busy flag handed to
    [SubdomainList]. *)
Definition list_busy (s : State) : bool := isCrawling s.

(** [isVisible={markdown !== ''}] of [MarkdownOutput]. *)
Definition markdown_visible (s : State) : bool :=
  match markdown s with
  | [] => false
  | _ :: _ => true
  end.

(** Two states that render the same: every [useState] cell agrees; the
    notifications already emitted are not part of what is rendered. *)
Definition same_cells (s1 s2 : State) : Prop :=
  st_url s1 = st_url s2 /\
  isProcessing s1 = isProcessing s2 /\
  discoveredPages s1 = discoveredPages s2 /\
  isCrawling s1 = isCrawling s2 /\
  markdown s1 = markdown s2 /\
  stats s1 = stats s2.

End View.

Import View.

(* ================================================================= *)
(** ** The page in front of the route *)

Module EndToEnd.

(** The answer of the route as the [fetch] of the page receives it:
    [response.ok] is read off the status, and [response.json()] gives back
    the object handed to [NextResponse.json], without its absent keys. *)
Definition response_of (answer : NextResponse) : DiscoverResponse :=
  mkDiscoverResponse
    ((200 <=? res_status answer) && (res_status answer <=? 299))%Z
    (Resolved (mkDiscoverData (body_error (res_body answer))
                 (body_details (res_body answer))
                 (body_errorType (res_body answer))
                 (body_pages (res_body answer)))).

(** [fetch('/api/discover', {body: JSON.stringify({url: submittedUrl,
    depth})})] served by [POST] in front of [backend]: the body parses to
    the string and the number that were sent, a number that is not finite
    having been written as [null]. *)
Definition discover_through_route (engine : Engine)
    (backend : BackendRequest -> Awaited BackendResponse)
    (submittedUrl : string) (depth : JsNumber) : Awaited DiscoverResponse :=
  Resolved
    (response_of
       (snd (POST engine
               (Resolved (mkRequestBody (JsStr (lit submittedUrl))
                            (as_json (JsNum depth))))
               backend))).

End EndToEnd.

Import EndToEnd.

(* ================================================================= *)
(** ** More answers for the examples *)

Module Scenario2.

(** A page the backend reports as failed. *)
Definition page_e : DiscoveredPage := mkPage "https://e/" error None.

(** The backend of the route finds [a], [e] and [c]. *)
Definition backend_finds_three (sent : BackendRequest)
  : Awaited BackendResponse :=
  Resolved (mkBackendResponse 200
              (Resolved (mkBackendData None
                           (Some [page_a; page_e; page_c]) None))).

(** The backend of the route answers 200 without a [pages] key. *)
Definition backend_without_pages (sent : BackendRequest)
  : Awaited BackendResponse :=
  Resolved (mkBackendResponse 200 (Resolved (mkBackendData None None None))).

(** The backend of the route answers 503 without an [error] key. *)
Definition backend_unavailable (sent : BackendRequest)
  : Awaited BackendResponse :=
  Resolved (mkBackendResponse 503 (Resolved (mkBackendData None None None))).

(** The discover endpoint answers with [a], [e] and [c]. *)
Definition discover_three (submittedUrl : string) (depth : JsNumber)
  : Awaited DiscoverResponse :=
  Resolved (mkDiscoverResponse true
              (Resolved (mkDiscoverData None None None
                           (Some [page_a; page_e; page_c])))).

(** The discover endpoint answers with a non-2xx status and an error. *)
Definition discover_bad_gateway (submittedUrl : string) (depth : JsNumber)
  : Awaited DiscoverResponse :=
  Resolved (mkDiscoverResponse false
              (Resolved (mkDiscoverData (Some "backend down") None
                           (Some "BadGateway") None))).

Definition never_valid (candidate : string) : bool := false.

(** The crawl endpoint answers 200 with an empty object. *)
Definition crawl_empty_object (pages : list DiscoveredPage)
  : Awaited CrawlResponse :=
  Resolved (mkCrawlResponse true (Resolved (mkCrawlData None None))).

(** The crawl endpoint cannot be reached. *)
Definition crawl_unreachable (pages : list DiscoveredPage)
  : Awaited CrawlResponse :=
  Rejected (ErrorObject "TypeError" "fetch failed" None).

(** The backend of the route answers with status 600. *)
Definition backend_status_600 (sent : BackendRequest)
  : Awaited BackendResponse :=
  Resolved (mkBackendResponse 600
              (Resolved (mkBackendData (Some "overloaded") None None))).

(** The backend of the route answers 502 with a body that is not JSON. *)
Definition backend_unreadable (sent : BackendRequest)
  : Awaited BackendResponse :=
  Resolved (mkBackendResponse 502
              (Rejected (ErrorObject "SyntaxError" "Unexpected token <"
                           None))).

(** The crawl endpoint answers non-2xx with a body that is not JSON. *)
Definition crawl_unreadable (pages : list DiscoveredPage)
  : Awaited CrawlResponse :=
  Resolved (mkCrawlResponse false
              (Rejected (ErrorObject "SyntaxError" "Unexpected token <"
                           None))).

(** The discover endpoint answers non-2xx with a body that is not JSON. *)
Definition discover_unreadable (submittedUrl : string) (depth : JsNumber)
  : Awaited DiscoverResponse :=
  Resolved (mkDiscoverResponse false
              (Rejected (ErrorObject "SyntaxError" "Unexpected token <"
                           None))).

End Scenario2.

Import Scenario2.

(* ================================================================= *)
(** ** Printing an integer and reading it back *)

Section PrintParse.

Lemma uint_units_decimal (d : Decimal.uint) :
  Forall is_decimal (uint_units d).
Proof.
  induction d; simpl; constructor; auto; unfold is_decimal; lia.
Qed.

Lemma decimal_not_whitespace (c : code_unit) :
  is_decimal c -> is_whitespace c = false.
Proof.
  unfold is_decimal, is_whitespace. intros H.
  repeat match goal with
         | |- context [(?a <=? ?b)%N] => destruct (N.leb_spec a b)
         | |- context [(?a =? ?b)%N] => destruct (N.eqb_spec a b)
         end; simpl; try reflexivity; lia.
Qed.

Lemma decimal_is_radix_digit (c : code_unit) :
  is_decimal c -> is_radix_digit 10 c = true.
Proof.
  unfold is_decimal, is_radix_digit, digit_value. intros H.
  destruct (N.leb_spec 48 c); [|lia].
  destruct (N.leb_spec c 57); [|lia].
  cbv [andb]. apply Z.ltb_lt. lia.
Qed.

Lemma trimStart_decimal (s : JsString) :
  Forall is_decimal s -> trimStart s = s.
Proof.
  intros H. destruct H as [|c rest Hc _]; simpl; [reflexivity|].
  now rewrite (decimal_not_whitespace c Hc).
Qed.

Lemma read_sign_decimal (s : JsString) :
  Forall is_decimal s -> read_sign s = (1%Z, s).
Proof.
  intros H. destruct H as [|c rest Hc _]; simpl; [reflexivity|].
  unfold is_decimal in Hc.
  destruct (N.eqb_spec c 45); [lia|].
  destruct (N.eqb_spec c 43); [lia|reflexivity].
Qed.

Lemma read_radix_decimal (s : JsString) :
  Forall is_decimal s -> read_radix s = (10%Z, s).
Proof.
  intros H. destruct H as [|c0 rest H0 Hrest]; [reflexivity|].
  destruct Hrest as [|c1 rest H1 _]; [reflexivity|].
  unfold read_radix, is_decimal in *.
  destruct (N.eqb_spec c1 120); [lia|].
  destruct (N.eqb_spec c1 88); [lia|].
  now rewrite andb_false_r.
Qed.

Lemma digit_prefix_decimal (s : JsString) :
  Forall is_decimal s -> digit_prefix 10 s = s.
Proof.
  induction 1 as [|c rest Hc _ IH]; simpl; [reflexivity|].
  now rewrite (decimal_is_radix_digit c Hc), IH.
Qed.

(** Reading the digits of [d] after an accumulator [p] is what the
    library's own reader computes. *)
Lemma digits_value_acc (d : Decimal.uint) (p : positive) :
  digits_value 10 (uint_units d) (Z.pos p) = Z.pos (Pos.of_uint_acc d p).
Proof.
  revert p.
  induction d; intros p; cbn [uint_units digits_value Pos.of_uint_acc];
    [reflexivity | ..];
    rewrite <- IHd;
    match goal with
    | |- context [digit_value ?c] =>
        let v := eval vm_compute in (digit_value c) in
        change (digit_value c) with v
    end;
    cbv iota; f_equal; lia.
Qed.

Lemma digits_value_of_uint (d : Decimal.uint) :
  digits_value 10 (uint_units d) 0 = Z.of_N (Pos.of_uint d).
Proof.
  induction d; cbn [uint_units digits_value Pos.of_uint];
    match goal with
    | |- context [digit_value ?c] =>
        let v := eval vm_compute in (digit_value c) in
        change (digit_value c) with v
    | _ => idtac
    end;
    cbv iota; [reflexivity | exact IHd | ..];
    apply digits_value_acc.
Qed.

Lemma parseInt_decimal (s : JsString) :
  Forall is_decimal s -> s <> [] ->
  parseInt s = Some (digits_value 10 s 0).
Proof.
  intros Hdec Hs. unfold parseInt.
  rewrite (trimStart_decimal _ Hdec), (read_sign_decimal _ Hdec),
    (read_radix_decimal _ Hdec), (digit_prefix_decimal _ Hdec).
  destruct s as [|c rest]; [congruence|].
  f_equal. apply Z.mul_1_l.
Qed.

Lemma parseInt_minus_decimal (s : JsString) :
  Forall is_decimal s -> s <> [] ->
  parseInt (45%N :: s) = Some (- digits_value 10 s 0)%Z.
Proof.
  intros Hdec Hs. unfold parseInt.
  change (trimStart (45%N :: s)) with (45%N :: s).
  change (read_sign (45%N :: s)) with ((-1)%Z, s). cbv beta iota.
  rewrite (read_radix_decimal _ Hdec), (digit_prefix_decimal _ Hdec).
  destruct s as [|c rest]; [congruence|].
  f_equal; lia.
Qed.

Lemma uint_units_nonempty (d : Decimal.uint) :
  d <> Nil -> uint_units d <> [].
Proof. destruct d; simpl; congruence. Qed.

Lemma skip_space_trimStart (t : JsString) : skip_space t = trimStart t.
Proof. induction t as [|c rest IH]; cbn; [reflexivity|]. now rewrite IH. Qed.

Lemma trimStart_space (space r : JsString) :
  Forall (fun c => is_whitespace c = true) space ->
  trimStart (space ++ r) = trimStart r.
Proof.
  induction 1 as [|c space Hc _ IH]; [reflexivity|].
  rewrite <- app_comm_cons. cbn [trimStart]. now rewrite Hc.
Qed.

Lemma starts_decimal_spec (t : JsString) :
  starts_with_decimal_digit t = true <->
  exists c rest, t = c :: rest /\ is_decimal c.
Proof.
  unfold starts_with_decimal_digit, is_decimal. destruct t as [|c rest].
  - split; [discriminate | intros (c & rest & H & _); discriminate].
  - rewrite andb_true_iff, !N.leb_le. split.
    + intros H. now exists c, rest.
    + intros (c' & rest' & [= <- <-] & H). exact H.
Qed.

Lemma not_decimal_not_radix_digit (c : code_unit) :
  ((48 <=? c) && (c <=? 57))%N = false -> is_radix_digit 10 c = false.
Proof.
  unfold is_radix_digit, digit_value. intros ->.
  destruct ((97 <=? c) && (c <=? 122))%N eqn:Hl.
  - apply andb_true_iff in Hl. rewrite !N.leb_le in Hl.
    apply Z.ltb_ge. lia.
  - destruct ((65 <=? c) && (c <=? 90))%N eqn:Hu; [|reflexivity].
    apply andb_true_iff in Hu. rewrite !N.leb_le in Hu.
    apply Z.ltb_ge. lia.
Qed.

Lemma digit_prefix_none (t : JsString) :
  starts_with_decimal_digit t = false -> digit_prefix 10 t = [].
Proof.
  destruct t as [|c rest]; cbn; [reflexivity|].
  intros H. now rewrite (not_decimal_not_radix_digit c H).
Qed.

Lemma digit_prefix_app (l tail : JsString) :
  Forall is_decimal l -> starts_with_decimal_digit tail = false ->
  digit_prefix 10 (l ++ tail) = l.
Proof.
  intros Hl Htail.
  induction Hl as [|c l Hc _ IH]; cbn [Datatypes.app digit_prefix].
  - now apply digit_prefix_none.
  - now rewrite (decimal_is_radix_digit c Hc), IH.
Qed.

Lemma read_radix_not_zero (t : JsString) :
  match t with c :: _ => c <> 48%N | [] => True end ->
  read_radix t = (10%Z, t).
Proof.
  destruct t as [|c0 [|c1 rest]]; cbn; try reflexivity.
  intros H. now destruct (N.eqb_spec c0 48).
Qed.

Lemma read_radix_second (c0 c1 : code_unit) (rest : JsString) :
  c1 <> 120%N -> c1 <> 88%N ->
  read_radix (c0 :: c1 :: rest) = (10%Z, c0 :: c1 :: rest).
Proof.
  intros H1 H2. cbn.
  destruct (N.eqb_spec c1 120); [contradiction|].
  destruct (N.eqb_spec c1 88); [contradiction|].
  now rewrite andb_false_r.
Qed.

(** A text without an integer at its start is [NaN] for [parseInt]. *)
Lemma parseInt_no_leading_integer (t : JsString) :
  no_leading_integer t -> parseInt t = None.
Proof.
  unfold no_leading_integer, after_space_and_sign, parseInt.
  rewrite skip_space_trimStart. unfold read_sign.
  destruct (trimStart t) as [|c rest]; [reflexivity|].
  destruct (N.eqb_spec c 45) as [->|H45]; cbn [orb].
  - intros H. rewrite read_radix_not_zero, digit_prefix_none; auto.
    destruct rest as [|c0 more]; [exact I|].
    intros ->. discriminate.
  - destruct (N.eqb_spec c 43) as [->|H43].
    + intros H. rewrite read_radix_not_zero, digit_prefix_none; auto.
      destruct rest as [|c0 more]; [exact I|].
      intros ->. discriminate.
    + intros H. rewrite read_radix_not_zero, digit_prefix_none; auto.
      intros ->. discriminate.
Qed.

(** Reading decimal digits goes on from the accumulator. *)
Lemma digits_value_app (l1 l2 : JsString) (acc : Z) :
  Forall is_decimal l1 ->
  digits_value 10 (l1 ++ l2) acc
  = digits_value 10 l2 (digits_value 10 l1 acc).
Proof.
  intros H. revert acc.
  induction H as [|c l Hc _ IH]; intros acc; cbn [Datatypes.app digits_value];
    [reflexivity|].
  unfold is_decimal in Hc. unfold digit_value.
  destruct (N.leb_spec 48 c); [|lia]. destruct (N.leb_spec c 57); [|lia].
  cbn [andb]. apply IH.
Qed.

Lemma digits_value_shift (l : JsString) (acc : Z) :
  Forall is_decimal l ->
  digits_value 10 l acc
  = (acc * 10 ^ Z.of_nat (List.length l) + digits_value 10 l 0)%Z /\
  (0 <= digits_value 10 l 0 < 10 ^ Z.of_nat (List.length l))%Z.
Proof.
  intros H. revert acc.
  induction H as [|c l Hc _ IH]; intros acc.
  - cbn. lia.
  - cbn [digits_value List.length]. unfold is_decimal in Hc.
    unfold digit_value.
    destruct (N.leb_spec 48 c); [|lia]. destruct (N.leb_spec c 57); [|lia].
    cbn [andb].
    destruct (IH (acc * 10 + (Z.of_N c - 48))%Z) as [E1 _].
    destruct (IH (0 * 10 + (Z.of_N c - 48))%Z) as [E2 B].
    rewrite E1, E2, Nat2Z.inj_succ, Z.pow_succ_r by lia.
    split; nia.
Qed.

Lemma digits_value_zeros (m : nat) (acc : Z) :
  digits_value 10 (repeat 48%N m) acc = (acc * 10 ^ Z.of_nat m)%Z.
Proof.
  revert acc. induction m as [|m IH]; intros acc.
  - cbn. lia.
  - cbn [repeat digits_value].
    change (digit_value 48%N) with (Some 0%Z). cbv iota.
    rewrite IH, Nat2Z.inj_succ, Z.pow_succ_r by lia. lia.
Qed.

Lemma repeat_zero_decimal (m : nat) : Forall is_decimal (repeat 48%N m).
Proof.
  induction m; cbn; constructor; auto. unfold is_decimal. lia.
Qed.

(** [parseInt] on white space, a sign, digits and a rest that starts with
    no digit, when the digits are read in radix 10. *)
Lemma parseInt_signed_digits (space sign l tail : JsString)
    (negative : bool) :
  Forall (fun c => is_whitespace c = true) space ->
  (sign = [] /\ negative = false \/
   sign = [43%N] /\ negative = false \/
   sign = [45%N] /\ negative = true) ->
  Forall is_decimal l -> l <> [] ->
  starts_with_decimal_digit tail = false ->
  read_radix (l ++ tail) = (10%Z, l ++ tail) ->
  parseInt (space ++ sign ++ l ++ tail)
  = Some (signed negative (digits_value 10 l 0)).
Proof.
  intros Hspace Hsign Hl Hne Htail Hradix. unfold parseInt.
  rewrite (trimStart_space _ _ Hspace).
  destruct l as [|c l']; [congruence|].
  assert (Hc : is_decimal c) by now inversion Hl.
  assert (Hread : read_sign (trimStart (sign ++ (c :: l') ++ tail))
                  = ((if negative then -1 else 1)%Z, (c :: l') ++ tail)).
  { destruct Hsign as [[-> ->] | [[-> ->] | [-> ->]]]; cbn [Datatypes.app trimStart].
    - rewrite (decimal_not_whitespace c Hc). unfold read_sign.
      unfold is_decimal in Hc.
      destruct (N.eqb_spec c 45); [lia|].
      destruct (N.eqb_spec c 43); [lia|reflexivity].
    - reflexivity.
    - reflexivity. }
  rewrite Hread, Hradix, (digit_prefix_app _ _ Hl Htail).
  f_equal. unfold signed. destruct negative; lia.
Qed.

Lemma read_radix_digits_then (l tail : JsString) :
  Forall is_decimal l -> l <> [] ->
  match tail with c :: _ => c <> 120%N /\ c <> 88%N | [] => True end ->
  read_radix (l ++ tail) = (10%Z, l ++ tail).
Proof.
  intros Hl Hne Htail.
  destruct Hl as [|c0 l H0 Hl]; [congruence|].
  destruct Hl as [|c1 l H1 _].
  - destruct tail as [|c rest]; [reflexivity|].
    destruct Htail. now apply read_radix_second.
  - unfold is_decimal in H1. apply read_radix_second; lia.
Qed.

Lemma uint_units_value (d : Decimal.uint) :
  digits_value 10 (uint_units d) 0 = Z.of_uint d.
Proof. apply digits_value_of_uint. Qed.

(** The digits of [d] are its digits without the trailing zeros, followed
    by those zeros. *)
Lemma strip_tail_units (d : Decimal.uint) :
  exists m,
    uint_units d = uint_units (strip_tail d) ++ repeat 48%N m.
Proof.
  induction d as [|d [m IH]|d [m IH]|d [m IH]|d [m IH]|d [m IH]
                  |d [m IH]|d [m IH]|d [m IH]|d [m IH]|d [m IH]];
    cbn [strip_tail uint_units];
    try (exists m; cbn [uint_units Datatypes.app]; now rewrite IH at 1).
  - exists 0%nat. reflexivity.
  - destruct (strip_tail d) eqn:E;
      try (exists m; cbn [uint_units Datatypes.app]; now rewrite IH at 1).
    exists (S m). cbn [uint_units Datatypes.app repeat] in *.
    now rewrite IH.
Qed.

Lemma leading_digit_units (d : Decimal.uint) :
  leading_digit d <> 0%Z ->
  exists c rest,
    uint_units d = c :: rest /\ is_decimal c /\ c <> 48%N /\
    digits_value 10 [c] 0 = leading_digit d.
Proof.
  unfold is_decimal.
  destruct d; cbn [leading_digit uint_units]; intros H;
    try congruence; do 2 eexists; repeat split; try reflexivity; lia.
Qed.

Lemma strip_tail_leading (d : Decimal.uint) :
  leading_digit d <> 0%Z -> leading_digit (strip_tail d) = leading_digit d.
Proof. destruct d; cbn; congruence. Qed.

(** A digit string with a non-zero first digit denotes at least the power
    of ten of its other digits. *)
Lemma leading_digit_bound (d : Decimal.uint) :
  leading_digit d <> 0%Z ->
  (10 ^ (Z.of_nat (List.length (uint_units d)) - 1) <= Z.of_uint d)%Z.
Proof.
  intros H. rewrite <- uint_units_value.
  pose proof (uint_units_decimal d) as Hdec.
  destruct (leading_digit_units d H) as (c & rest & E & Hc & Hc0 & _).
  rewrite E in *. inversion Hdec as [|? ? _ Hrest]; subst.
  cbn [digits_value List.length]. unfold is_decimal in Hc.
  unfold digit_value.
  destruct (N.leb_spec 48 c); [|lia]. destruct (N.leb_spec c 57); [|lia].
  cbn [andb].
  destruct (digits_value_shift rest (0 * 10 + (Z.of_N c - 48))%Z Hrest)
    as [-> B].
  replace (Z.of_nat (S (List.length rest)) - 1)%Z
    with (Z.of_nat (List.length rest)) by lia.
  assert (0 < 10 ^ Z.of_nat (List.length rest))%Z
    by (apply Z.pow_pos_nonneg; lia).
  nia.
Qed.

Lemma to_uint_leading (p : positive) : leading_digit (Pos.to_uint p) <> 0%Z.
Proof.
  pose proof (Unsigned.to_of (Pos.to_uint p)) as H.
  rewrite Unsigned.of_to in H. cbn [N.to_uint] in H.
  pose proof (Unsigned.to_uint_nonzero p) as Hz.
  pose proof (Unsigned.to_uint_nonnil p) as Hn.
  unfold unorm in H.
  destruct (nzhead (Pos.to_uint p)) eqn:E;
    try (rewrite H; cbn; discriminate).
  - congruence.
  - exfalso. eapply DecimalFacts.nzhead_nonzero. exact E.
Qed.

Lemma to_uint_length (p : positive) :
  (Z.pos p < 10 ^ 21)%Z ->
  (Z.of_nat (List.length (uint_units (Pos.to_uint p))) <= 21)%Z.
Proof.
  intros Hp.
  pose proof (leading_digit_bound _ (to_uint_leading p)) as Hb.
  unfold Z.of_uint in Hb. rewrite Unsigned.of_to in Hb.
  cbn [Z.of_N] in Hb.
  destruct (Z.le_gt_cases
              (Z.of_nat (List.length (uint_units (Pos.to_uint p)))) 21)
    as [Hle|Hgt]; [exact Hle|].
  assert (10 ^ 21 <= 10 ^ (Z.of_nat (List.length
                                       (uint_units (Pos.to_uint p))) - 1))%Z
    by (apply Z.pow_le_mono_r; lia).
  lia.
Qed.

(** An integer below 10^21 in magnitude is printed with all its digits. *)
Lemma number_to_string_of_Z (z : Z) :
  (Z.abs z < 10 ^ 21)%Z ->
  number_to_string (of_Z z) =
  match Z.to_int z with
  | Decimal.Pos d => uint_units d
  | Decimal.Neg d => 45%N :: uint_units d
  end.
Proof.
  assert (Hpos : forall p negative,
             (Z.pos p < 10 ^ 21)%Z ->
             number_to_string
               (Finite negative (strip_tail (Pos.to_uint p))
                  (Z.of_nat (List.length (uint_units (Pos.to_uint p)))))
             = (if negative then [45%N] else [])
               ++ uint_units (Pos.to_uint p)).
  { intros p negative Hp. unfold number_to_string.
    pose proof (to_uint_length p Hp) as Hlen.
    pose proof (to_uint_leading p) as Hlead.
    destruct (strip_tail_units (Pos.to_uint p)) as [m Hm].
    destruct (leading_digit_units _ Hlead) as (c & rest & E & _).
    pose proof (strip_tail_leading _ Hlead) as Hs.
    rewrite <- Hs in Hlead.
    destruct (leading_digit_units _ Hlead) as (c' & rest' & E' & _).
    rewrite E'. rewrite <- E'.
    assert (Hk : List.length (uint_units (Pos.to_uint p))
                 = (List.length (uint_units (strip_tail (Pos.to_uint p)))
                    + m)%nat).
    { rewrite Hm at 1. now rewrite length_app, repeat_length. }
    rewrite Hk.
    replace ((Z.of_nat (List.length
                          (uint_units (strip_tail (Pos.to_uint p))))
              <=? Z.of_nat (List.length
                              (uint_units (strip_tail (Pos.to_uint p)))
                            + m))%Z) with true
      by (symmetry; apply Z.leb_le; lia).
    replace ((Z.of_nat (List.length
                          (uint_units (strip_tail (Pos.to_uint p))) + m)
              <=? 21)%Z) with true
      by (symmetry; apply Z.leb_le; lia).
    cbn [andb]. f_equal.
    replace (Z.to_nat
               (Z.of_nat (List.length
                            (uint_units (strip_tail (Pos.to_uint p))) + m)
                - Z.of_nat (List.length
                              (uint_units (strip_tail (Pos.to_uint p))))))
      with m by lia.
    now rewrite <- Hm. }
  intros Hz. destruct z as [|p|p]; cbn [of_Z Z.to_int].
  - reflexivity.
  - now rewrite (Hpos p false) by lia.
  - now rewrite (Hpos p true) by lia.
Qed.

(** [parseInt(String(z))] is [z] for an integer below 10^21 in
    magnitude. *)
Lemma parseInt_number_to_string (z : Z) :
  (Z.abs z < 10 ^ 21)%Z ->
  parseInt (number_to_string (of_Z z)) = Some z.
Proof.
  intros Hz. rewrite (number_to_string_of_Z z Hz).
  pose proof (DecimalZ.of_to z) as Hto.
  destruct z as [|p|p]; cbn [Z.to_int Z.of_int Z.of_uint] in *.
  - reflexivity.
  - rewrite parseInt_decimal, digits_value_of_uint;
      auto using uint_units_decimal, uint_units_nonempty,
        Unsigned.to_uint_nonnil.
    now rewrite <- Hto.
  - rewrite parseInt_minus_decimal, digits_value_of_uint;
      auto using uint_units_decimal, uint_units_nonempty,
        Unsigned.to_uint_nonnil.
    now rewrite <- Hto.
Qed.

Lemma parseInt_sign_digits_rest (sign l tail : JsString) (negative : bool) :
  (sign = [] /\ negative = false \/
   sign = [43%N] /\ negative = false \/
   sign = [45%N] /\ negative = true) ->
  Forall is_decimal l -> l <> [] ->
  starts_with_decimal_digit tail = false ->
  read_radix (l ++ tail) = (10%Z, l ++ tail) ->
  parseInt (sign ++ l ++ tail)
  = Some (signed negative (digits_value 10 l 0)).
Proof. intros. now apply (parseInt_signed_digits []). Qed.

Lemma parseInt_sign_digits (sign l : JsString) (negative : bool) :
  (sign = [] /\ negative = false \/
   sign = [43%N] /\ negative = false \/
   sign = [45%N] /\ negative = true) ->
  Forall is_decimal l -> l <> [] ->
  parseInt (sign ++ l) = Some (signed negative (digits_value 10 l 0)).
Proof.
  intros Hsign Hl Hne.
  rewrite <- (List.app_nil_r l) at 1.
  apply parseInt_sign_digits_rest; auto.
  rewrite List.app_nil_r. now apply read_radix_decimal.
Qed.

(** A number with 1 to 21 digits before the point is read back by
    [parseInt] as its integer part. *)
Lemma parseInt_finite_plain (negative : bool) (s : Decimal.uint) (n : Z) :
  s <> Nil -> (0 < n <= 21)%Z ->
  parseInt (number_to_string (Finite negative s n))
  = Some (signed negative (integer_part s n)).
Proof.
  intros Hs Hn. unfold number_to_string, integer_part.
  pose proof (uint_units_decimal s) as Hdec.
  pose proof (uint_units_nonempty s Hs) as Hne.
  rewrite <- uint_units_value.
  set (ds := uint_units s) in *.
  set (k := Z.of_nat (List.length ds)).
  assert (Hkdef : k = Z.of_nat (List.length ds)) by reflexivity.
  clearbody k.
  assert (Hsign : (if negative then [45%N] else []) = [] /\ negative = false
                  \/ (if negative then [45%N] else []) = [43%N]
                     /\ negative = false
                  \/ (if negative then [45%N] else []) = [45%N]
                     /\ negative = true)
    by (destruct negative; auto).
  assert (Hk : (0 < 10 ^ k)%Z) by (apply Z.pow_pos_nonneg; lia).
  destruct ds as [|d more] eqn:Eds; [congruence|]. rewrite <- Eds in *.
  destruct ((k <=? n) && (n <=? 21))%Z eqn:HA.
  - apply andb_true_iff in HA. rewrite !Z.leb_le in HA.
    rewrite (parseInt_sign_digits _ _ negative); auto.
    + do 2 f_equal.
      rewrite (digits_value_app _ _ _ Hdec), digits_value_zeros.
      rewrite Z2Nat.id by lia.
      replace n with ((n - k) + k)%Z at 2 by lia.
      rewrite Z.pow_add_r, Z.mul_assoc, Z.div_mul by lia. reflexivity.
    + apply Forall_app. split; [exact Hdec | apply repeat_zero_decimal].
    + rewrite Eds. discriminate.
  - replace ((0 <? n) && (n <=? 21))%Z with true
      by (symmetry; apply andb_true_iff; rewrite Z.ltb_lt, Z.leb_le; lia).
    assert (Hlt : (n < k)%Z).
    { apply andb_false_iff in HA. rewrite !Z.leb_gt in HA. lia. }
    assert (Hfirst : Forall is_decimal (firstn (Z.to_nat n) ds)).
    { rewrite <- (firstn_skipn (Z.to_nat n) ds) in Hdec.
      now apply Forall_app in Hdec. }
    assert (Hskip : Forall is_decimal (skipn (Z.to_nat n) ds)).
    { rewrite <- (firstn_skipn (Z.to_nat n) ds) in Hdec.
      now apply Forall_app in Hdec. }
    rewrite (parseInt_sign_digits_rest _ _ _ negative); auto.
    + do 2 f_equal.
      rewrite <- (firstn_skipn (Z.to_nat n) ds) at 2.
      rewrite (digits_value_app _ _ _ Hfirst).
      destruct (digits_value_shift (skipn (Z.to_nat n) ds)
                  (digits_value 10 (firstn (Z.to_nat n) ds) 0) Hskip)
        as [-> B].
      rewrite length_skipn in *.
      replace (Z.of_nat (List.length ds - Z.to_nat n)) with (k - n)%Z in *
        by lia.
      set (A := digits_value 10 (firstn (Z.to_nat n) ds) 0) in *.
      set (R := digits_value 10 (skipn (Z.to_nat n) ds) 0) in *.
      assert (Hkn : (10 ^ k = 10 ^ (k - n) * 10 ^ n)%Z)
        by (rewrite <- Z.pow_add_r by lia; f_equal; lia).
      assert (Hpn : (0 < 10 ^ n)%Z) by (apply Z.pow_pos_nonneg; lia).
      apply Z.div_unique_pos with (r := (R * 10 ^ n)%Z); nia.
    + intros E. apply (f_equal (@List.length _)) in E.
      rewrite length_firstn in E. cbn in E. lia.
    + apply read_radix_digits_then; auto.
      * intros E. apply (f_equal (@List.length _)) in E.
        rewrite length_firstn in E. cbn in E. lia.
      * split; discriminate.
Qed.

(** Zero, and a number below 1 that is printed without an exponent, start
    with the digit 0 and nothing else that [parseInt] reads. *)
Lemma parseInt_finite_small (negative : bool) (s : Decimal.uint) (n : Z) :
  s = Nil \/ (-6 < n <= 0)%Z ->
  parseInt (number_to_string (Finite negative s n)) = Some 0%Z.
Proof.
  intros Hsmall. unfold number_to_string.
  destruct (uint_units s) as [|d more] eqn:E; [reflexivity|].
  destruct Hsmall as [-> | Hn]; [discriminate|].
  assert (Hpos : (0 < Z.of_nat (List.length (d :: more)))%Z)
    by (cbn [List.length]; lia).
  replace ((Z.of_nat (List.length (d :: more)) <=? n) && (n <=? 21))%Z
    with false
    by (symmetry; apply andb_false_iff; rewrite !Z.leb_gt; lia).
  replace ((0 <? n) && (n <=? 21))%Z with false
    by (symmetry; apply andb_false_iff; rewrite Z.ltb_ge; lia).
  replace ((-6 <? n) && (n <=? 0))%Z with true
    by (symmetry; apply andb_true_iff; rewrite Z.ltb_lt, Z.leb_le; lia).
  change (48%N :: 46%N :: repeat 48%N (Z.to_nat (- n)) ++ d :: more)
    with ([48%N] ++ 46%N :: repeat 48%N (Z.to_nat (- n)) ++ d :: more).
  rewrite (parseInt_sign_digits_rest _ [48%N] _ negative).
  - now destruct negative.
  - destruct negative; auto.
  - repeat constructor; unfold is_decimal; lia.
  - discriminate.
  - reflexivity.
  - reflexivity.
Qed.

(** A number printed with an exponent is read back by [parseInt] as its
    first digit. *)
Lemma parseInt_finite_exponent (negative : bool) (s : Decimal.uint) (n : Z) :
  (21 < n \/ n <= -6)%Z -> leading_digit s <> 0%Z ->
  parseInt (number_to_string (Finite negative s n))
  = Some (signed negative (leading_digit s)).
Proof.
  intros Hn Hlead. unfold number_to_string.
  destruct (leading_digit_units s Hlead) as (c & more & E & Hc & _ & Hv).
  rewrite E. rewrite <- E.
  assert (Hpos : (0 < Z.of_nat (List.length (uint_units s)))%Z)
    by (rewrite E; cbn [List.length]; lia).
  replace ((Z.of_nat (List.length (uint_units s)) <=? n) && (n <=? 21))%Z
    with false
    by (symmetry; apply andb_false_iff; rewrite !Z.leb_gt; lia).
  replace ((0 <? n) && (n <=? 21))%Z with false
    by (symmetry; apply andb_false_iff; rewrite Z.ltb_ge, Z.leb_gt; lia).
  replace ((-6 <? n) && (n <=? 0))%Z with false
    by (symmetry; apply andb_false_iff; rewrite Z.ltb_ge, Z.leb_gt; lia).
  assert (Hsign : (if negative then [45%N] else []) = [] /\ negative = false
                  \/ (if negative then [45%N] else []) = [43%N]
                     /\ negative = false
                  \/ (if negative then [45%N] else []) = [45%N]
                     /\ negative = true)
    by (destruct negative; auto).
  rewrite <- Hv.
  destruct more as [|c' more'].
  - apply (parseInt_sign_digits_rest _ [c] _ negative); auto.
    + discriminate.
    + apply read_radix_second; discriminate.
  - apply (parseInt_sign_digits_rest _ [c] _ negative); auto.
    + discriminate.
    + apply read_radix_second; discriminate.
Qed.

(** A text that starts with an integer is read by [parseInt] as that
    integer, which is not zero. *)
Lemma parseInt_leading_integer (t : JsString) (negative : bool)
    (d : Decimal.uint) :
  has_leading_integer t negative d ->
  parseInt t = Some (signed negative (Z.of_uint d)) /\ Z.of_uint d <> 0%Z.
Proof.
  intros (space & sign & rest & -> & Hspace & Hsign & Hlead & Hrest).
  destruct (leading_digit_units d Hlead) as (c & more & E & Hc & Hc0 & _).
  split.
  - rewrite <- uint_units_value.
    apply parseInt_signed_digits; auto using uint_units_decimal.
    + rewrite E. discriminate.
    + apply read_radix_not_zero. rewrite E. exact Hc0.
  - pose proof (leading_digit_bound d Hlead) as Hb.
    assert (0 < 10 ^ (Z.of_nat (List.length (uint_units d)) - 1))%Z.
    { apply Z.pow_pos_nonneg; [lia|]. rewrite E. cbn [List.length]. lia. }
    lia.
Qed.

End PrintParse.

(* ================================================================= *)
(** ** The discover route *)

Section RouteFacts.

Variable engine : Engine.

Lemma validatedDepth_range (depth : JsValue) (validated : Z) :
  validatedDepth depth = Some validated -> (1 <= validated <= 5)%Z.
Proof.
  unfold validatedDepth. destruct (ToString depth); [|discriminate].
  intros [= <-]. lia.
Qed.

Lemma validatedDepth_text (depth : JsValue) (text : JsString) :
  ToString depth = Some text ->
  validatedDepth depth
  = Some (Z.min 5 (Z.max 1 (num_or (parseInt text) 3))).
Proof. unfold validatedDepth. now intros ->. Qed.

Lemma validatedDepth_number (z : Z) :
  (Z.abs z < 10 ^ 21)%Z ->
  validatedDepth (JsInt z) = Some (if (z =? 0)%Z then 3%Z else clamp z 1 5).
Proof.
  intros Hz. unfold validatedDepth, clamp, JsInt. cbn [ToString].
  rewrite (parseInt_number_to_string z Hz). unfold num_or.
  destruct (z =? 0)%Z; reflexivity.
Qed.

Lemma validatedDepth_parsed (depth : JsValue) (text : JsString) (z : Z) :
  ToString depth = Some text -> parseInt text = Some z -> z <> 0%Z ->
  validatedDepth depth = Some (clamp z 1 5).
Proof.
  intros Ht Hp Hz. rewrite (validatedDepth_text _ _ Ht), Hp.
  unfold num_or, clamp. now destruct (Z.eqb_spec z 0).
Qed.

Lemma signed_nonzero (negative : bool) (z : Z) :
  z <> 0%Z -> signed negative z <> 0%Z.
Proof. unfold signed. destruct negative; lia. Qed.

Lemma validatedDepth_non_numeric (depth : JsValue) :
  non_numeric depth -> validatedDepth (default_depth depth) = Some 3%Z.
Proof.
  unfold non_numeric.
  destruct depth as [| |[|]|[negative s n|[|]|]|s|elems|fields];
    cbn [default_depth]; intros H; try reflexivity; try contradiction.
  - rewrite (validatedDepth_text (JsStr s) s eq_refl).
    now rewrite (parseInt_no_leading_integer s H).
  - destruct H as (text & Ht & Hno).
    rewrite (validatedDepth_text _ text Ht).
    now rewrite (parseInt_no_leading_integer text Hno).
  - unfold validatedDepth. cbn [ToString]. now rewrite H.
Qed.

(** The requests [POST] sends: none, or exactly one carrying the url of
    the body and the validated depth. *)
Lemma POST_requests (request_json : Awaited RequestBody)
    (fetch : BackendRequest -> Awaited BackendResponse) :
  fst (POST engine request_json fetch) =
  match request_json with
  | Rejected _ => []
  | Resolved body =>
      if truthy (body_url body) then
        match validatedDepth (default_depth (body_depth body)) with
        | Some validated =>
            [mkBackendRequest (as_json (body_url body)) validated]
        | None => []
        end
      else []
  end.
Proof.
  unfold POST, POST_try. destruct request_json as [body|e]; [|reflexivity].
  destruct (truthy (body_url body)); cbn [negb].
  - destruct (validatedDepth _) as [validated|]; [|reflexivity].
    destruct (fetch _) as [response|e]; [|reflexivity].
    destruct (negb (resp_ok response));
      destruct (resp_json response); try reflexivity;
      destruct (json _ _ _); reflexivity.
  - destruct (json _ _ _); reflexivity.
Qed.

(** C4, as the code has it.  Every request that reaches the backend
    carries a depth between 1 and 5.  For a request body with a url, one
    request is sent and its depth is: [clamp(depth, 1, 5)] for an integer
    depth other than 0 and below 2^53 in magnitude; the clamped integer
    part for a number with 1 to 21 digits before the point whose integer
    part is not 0; the clamped first digit for a number that [String]
    prints with an exponent; 3 for zero and for a number below 1 that is
    printed without an exponent; the clamped leading integer for any depth
    whose text starts with an integer not starting with 0; and exactly 3
    when the depth is absent or non-numeric.  A depth object with an own
    [toString] key makes [String(depth)] throw: the route answers 500 with
    a [TypeError] and sends nothing. *)
Theorem C4_depth_sent_to_backend (request_json : Awaited RequestBody)
    (fetch : BackendRequest -> Awaited BackendResponse) :
  Forall (fun sent => (1 <= req_depth sent <= 5)%Z)
    (fst (POST engine request_json fetch)) /\
  forall body,
    request_json = Resolved body ->
    truthy (body_url body) = true ->
    let depth := body_depth body in
    let sent_depths := map req_depth (fst (POST engine request_json fetch)) in
    (forall z, depth = JsInt z -> z <> 0%Z -> (Z.abs z < 2 ^ 53)%Z ->
               sent_depths = [clamp z 1 5]) /\
    (forall negative s n,
        depth = JsNum (Finite negative s n) ->
        (0 < n <= 21)%Z -> integer_part s n <> 0%Z ->
        sent_depths = [clamp (signed negative (integer_part s n)) 1 5]) /\
    (forall negative s n,
        depth = JsNum (Finite negative s n) ->
        (21 < n \/ n <= -6)%Z -> leading_digit s <> 0%Z ->
        sent_depths = [clamp (signed negative (leading_digit s)) 1 5]) /\
    (forall negative s n,
        depth = JsNum (Finite negative s n) ->
        s = Nil \/ (-6 < n <= 0)%Z ->
        sent_depths = [3%Z]) /\
    (forall text negative d,
        ToString depth = Some text ->
        has_leading_integer text negative d ->
        sent_depths = [clamp (signed negative (Z.of_uint d)) 1 5]) /\
    (non_numeric depth -> sent_depths = [3%Z]) /\
    (forall fields,
        depth = JsObj fields -> has_own_toString fields = true ->
        fst (POST engine request_json fetch) = [] /\
        res_status (snd (POST engine request_json fetch)) = 500%Z /\
        body_errorType (res_body (snd (POST engine request_json fetch)))
          = Some "TypeError").
Proof.
  split.
  - rewrite POST_requests.
    destruct request_json as [body|e]; [|constructor].
    destruct (truthy (body_url body)); [|constructor].
    destruct (validatedDepth _) as [validated|] eqn:Hv; [|constructor].
    repeat constructor; cbn [req_depth];
      apply (validatedDepth_range _ _ Hv).
  - intros body -> Hurl depth sent_depths. subst sent_depths depth.
    rewrite POST_requests, Hurl.
    assert (Hsent : forall v,
               validatedDepth (default_depth (body_depth body)) = Some v ->
               map req_depth
                 match validatedDepth (default_depth (body_depth body)) with
                 | Some validated =>
                     [mkBackendRequest (as_json (body_url body)) validated]
                 | None => []
                 end = [v]) by (now intros v ->).
    refine (conj _ (conj _ (conj _ (conj _ (conj _ (conj _ _)))))).
    + intros z Hz Hnz Hsafe. apply Hsent. rewrite Hz.
      change (default_depth (JsInt z)) with (JsInt z).
      rewrite validatedDepth_number by (change (2 ^ 53)%Z with
        9007199254740992%Z in Hsafe; change (10 ^ 21)%Z with
        1000000000000000000000%Z; lia).
      now destruct (Z.eqb_spec z 0).
    + intros negative s n Hd Hn Hpart. apply Hsent. rewrite Hd.
      cbn [default_depth].
      apply (validatedDepth_parsed (JsNum (Finite negative s n)) _ _
               eq_refl); [|now apply signed_nonzero].
      apply parseInt_finite_plain; [|exact Hn].
      intros ->. apply Hpart. unfold integer_part. now cbn.
    + intros negative s n Hd Hn Hlead. apply Hsent. rewrite Hd.
      cbn [default_depth].
      apply (validatedDepth_parsed (JsNum (Finite negative s n)) _ _
               eq_refl); [|now apply signed_nonzero].
      now apply parseInt_finite_exponent.
    + intros negative s n Hd Hsmall. apply Hsent. rewrite Hd.
      cbn [default_depth].
      rewrite (validatedDepth_text (JsNum (Finite negative s n)) _ eq_refl).
      now rewrite (parseInt_finite_small _ _ _ Hsmall).
    + intros text negative d Ht Hlead. apply Hsent.
      destruct (parseInt_leading_integer _ _ _ Hlead) as [Hp Hnz].
      destruct (body_depth body) eqn:Hd; cbn [default_depth];
        apply (validatedDepth_parsed _ _ _ Ht Hp);
        now apply signed_nonzero.
    + intros Hnon. apply Hsent. now apply validatedDepth_non_numeric.
    + intros fields Hd Hown.
      unfold POST, POST_try. rewrite Hurl, Hd.
      cbn [negb default_depth]. unfold validatedDepth. cbn [ToString].
      rewrite Hown. repeat split.
Qed.

(** C7: when the backend answers successfully with an empty [pages]
    array, the route answers with status 200, [pages] the empty array, a
    message that is the backend's own or else 'No pages discovered', and no
    [error] key. *)
Theorem C7_empty_discovery_is_success (body : RequestBody)
    (fetch : BackendRequest -> Awaited BackendResponse)
    (validated : Z) (response : BackendResponse) (data : BackendData) :
  truthy (body_url body) = true ->
  validatedDepth (default_depth (body_depth body)) = Some validated ->
  fetch (mkBackendRequest (as_json (body_url body)) validated)
    = Resolved response ->
  resp_ok response = true ->
  resp_json response = Resolved data ->
  data_pages data = Some [] ->
  let answer := snd (POST engine (Resolved body) fetch) in
  res_status answer = 200%Z /\
  body_pages (res_body answer) = Some [] /\
  body_message (res_body answer)
    = Some (str_or (data_message data) "No pages discovered") /\
  body_error (res_body answer) = None.
Proof.
  intros Hurl Hdepth Hfetch Hok Hjson Hpages. unfold POST, POST_try.
  rewrite Hurl. cbn [negb]. rewrite Hdepth, Hfetch, Hok. cbn [negb].
  rewrite Hjson. unfold success_message. rewrite Hpages.
  repeat split.
Qed.

(** The answers of the [catch] block, by contrast, carry status 500 and
    an [error] key. *)
Lemma failure_is_an_error_answer (e : Thrown) :
  res_status (failure e) = 500%Z /\ body_error (res_body (failure e)) <> None.
Proof. split; [reflexivity | discriminate]. Qed.

(** C10: a body whose [url] is absent or falsy is answered with status 400
    and the error 'URL is required', and nothing is sent to the backend. *)
Theorem C10_missing_url_is_rejected (body : RequestBody)
    (fetch : BackendRequest -> Awaited BackendResponse) :
  truthy (body_url body) = false ->
  fst (POST engine (Resolved body) fetch) = [] /\
  res_status (snd (POST engine (Resolved body) fetch)) = 400%Z /\
  body_error (res_body (snd (POST engine (Resolved body) fetch)))
    = Some "URL is required".
Proof.
  intros Hurl. unfold POST, POST_try. rewrite Hurl. repeat split.
Qed.

End RouteFacts.

(* ================================================================= *)
(** ** Marking passes *)

Section MarkingFacts.

Variable selectedUrls : list string.

Lemma markLink_marked (newStatus : Status) (l : LinkRef) :
  link_marked selectedUrls newStatus l (markLink selectedUrls newStatus l).
Proof.
  unfold link_marked, markLink. cbn [href link_status].
  destruct (includes selectedUrls (href l)); repeat split;
    try discriminate; intros _.
  - now intros s ->.
  - now intros ->.
Qed.

Lemma markPage_marked (newStatus : Status) (p : DiscoveredPage) :
  page_marked selectedUrls newStatus p (markPage selectedUrls newStatus p).
Proof.
  unfold page_marked, markPage. cbn [url status internalLinks].
  split; [reflexivity|].
  split; [now intros ->|]. split; [now intros ->|].
  destruct (internalLinks p) as [links|]; cbn [option_map]; [|exact I].
  induction links as [|l links IH]; cbn [map]; constructor;
    auto using markLink_marked.
Qed.

Lemma markSelected_shape (newStatus : Status) (pages : list DiscoveredPage) :
  shape (markSelected selectedUrls newStatus pages) = shape pages.
Proof.
  unfold shape, markSelected. rewrite map_map.
  apply map_ext. intros p. cbn [markPage url internalLinks]. f_equal.
  destruct (internalLinks p) as [links|]; cbn [option_map]; [|reflexivity].
  f_equal. rewrite map_map. apply map_ext. reflexivity.
Qed.

Lemma markSelected_selection_marked (newStatus : Status)
    (pages : list DiscoveredPage) :
  selection_marked selectedUrls newStatus
    (markSelected selectedUrls newStatus pages).
Proof.
  unfold selection_marked, markSelected. apply Forall_map, Forall_forall.
  intros p _. cbn [markPage url status internalLinks]. split.
  - now intros ->.
  - intros links Hlinks.
    destruct (internalLinks p) as [ls|]; cbn [option_map] in Hlinks;
      [|discriminate].
    injection Hlinks as <-. apply Forall_map, Forall_forall.
    intros l _. cbn [markLink href link_status]. now intros ->.
Qed.

Lemma markSelected_links_defined (newStatus : Status)
    (pages : list DiscoveredPage) :
  links_defined (markSelected selectedUrls newStatus pages).
Proof.
  unfold links_defined, markSelected. apply Forall_map, Forall_forall.
  intros p _ links Hlinks. cbn [markPage internalLinks] in Hlinks.
  destruct (internalLinks p) as [ls|]; cbn [option_map] in Hlinks;
    [|discriminate].
  injection Hlinks as <-. apply Forall_map, Forall_forall.
  intros l _. cbn [markLink link_status]. discriminate.
Qed.

End MarkingFacts.

(* ================================================================= *)
(** ** The crawl orchestrator *)

Section CrawlFacts.

Variable formatBytes : nat -> string.
Variable saveMarkdown : string -> JsString -> Awaited unit.
Variable fetch_crawl : list DiscoveredPage -> Awaited CrawlResponse.

Ltac run_handler :=
  cbv [after handleCrawlSelected crawl_body crawl_catch save_and_record
       bind ret throw get modify await try_catch try_finally when
       setIsCrawling setDiscoveredPages setStats setMarkdown toast
       fst snd].

(** The three ways an invocation can end, as a function of what the crawl
    endpoint and the storage answer. *)
Lemma handleCrawlSelected_run (selectedUrls : list string) (s : State) :
  let reply := fetch_crawl (filterByUrls selectedUrls (discoveredPages s)) in
  after (handleCrawlSelected formatBytes saveMarkdown fetch_crawl
           selectedUrls) s =
  match thrown_by_exchange reply with
  | Some e => failed_state selectedUrls e s
  | None =>
      match saveMarkdown (st_url s) (returned_markdown reply) with
      | Resolved _ =>
          saved_state formatBytes selectedUrls (returned_markdown reply) s
      | Rejected _ => unsaved_state selectedUrls s
      end
  end.
Proof.
  intros reply. subst reply. run_handler.
  cbv [thrown_by_exchange returned_markdown].
  cbn [discoveredPages st_url isProcessing isCrawling markdown stats toasts].
  destruct (fetch_crawl _) as [response|e]; [|reflexivity].
  destruct (crawl_ok response); cbn [negb];
    destruct (crawl_json response) as [data|e]; try reflexivity.
  destruct (error_present (c_error data)); [reflexivity|].
  destruct (saveMarkdown _ _) as [[]|e]; cbv [saved_state unsaved_state];
    cbn [discoveredPages st_url isProcessing isCrawling markdown stats toasts];
    rewrite <- ?app_assoc; reflexivity.
Qed.

Lemma request_fails_throws (reply : Awaited CrawlResponse) :
  crawl_request_fails reply -> exists e, thrown_by_exchange reply = Some e.
Proof.
  destruct reply as [response|e]; cbn; [|eauto].
  intros ->. destruct (crawl_json response); cbn; eauto.
Qed.

(** What the failure reconciliation leaves: the same pages and links, the
    selection marked ['error'], one more error counted, one destructive
    notification, and nothing else in the stats touched. *)
Lemma failed_state_facts (selectedUrls : list string) (e : Thrown)
    (s : State) :
  let s' := failed_state selectedUrls e s in
  shape (discoveredPages s') = shape (discoveredPages s) /\
  selection_marked selectedUrls error (discoveredPages s') /\
  errorsEncountered (stats s') = errorsEncountered (stats s) + 1 /\
  toasts s' =
    toasts s ++
    [mkToast "Error"
       (match e with
        | ErrorObject _ message _ => message
        | NonError => "Failed to crawl pages"
        end)
       (Some destructive)] /\
  pagesCrawled (stats s') = pagesCrawled (stats s).
Proof.
  cbv [failed_state]. cbn [discoveredPages stats toasts errorsEncountered
                           pagesCrawled].
  rewrite !markSelected_shape.
  auto using markSelected_selection_marked.
Qed.

Lemma selection_marked_error_not_crawled (selectedUrls : list string)
    (pages : list DiscoveredPage) :
  selection_marked selectedUrls error pages ->
  Forall (fun p => includes selectedUrls (url p) = true ->
                   status p <> crawled) pages.
Proof.
  unfold selection_marked. apply Forall_impl.
  intros p [Hp _] Hsel. rewrite (Hp Hsel). discriminate.
Qed.

End CrawlFacts.

(* ================================================================= *)
(** ** Claims about the marking passes *)

Section MarkingClaims.

Variable selectedUrls : list string.
Variable newStatus : Status.

(** C3, as the code has it: a marking pass keeps every url and href; a
    page or link named by the selection gets the new status; a page the
    selection does not name keeps its status; a link the selection does not
    name keeps the status it has, and gets 'pending' when it has none. *)
Theorem C3_marking_pass_frame (pages : list DiscoveredPage) :
  Forall2 (page_marked selectedUrls newStatus) pages
    (markSelected selectedUrls newStatus pages).
Proof.
  unfold markSelected.
  induction pages as [|p pages IH]; cbn [map]; constructor;
    auto using markPage_marked.
Qed.

(** C9: after a marking pass every link of every page has a status, and a
    link that had none and is not named by the selection has 'pending'. *)
Theorem C9_links_defined_after_marking (pages : list DiscoveredPage) :
  links_defined (markSelected selectedUrls newStatus pages) /\
  Forall2
    (fun p p' =>
       match internalLinks p, internalLinks p' with
       | None, None => True
       | Some links, Some links' =>
           Forall2 (fun l l' =>
                      link_status l = None ->
                      includes selectedUrls (href l) = false ->
                      link_status l' = Some pending) links links'
       | _, _ => False
       end)
    pages (markSelected selectedUrls newStatus pages).
Proof.
  split; [apply markSelected_links_defined|].
  unfold markSelected.
  induction pages as [|p pages IH]; cbn [map]; constructor; [|exact IH].
  cbn [markPage internalLinks].
  destruct (internalLinks p) as [links|]; cbn [option_map]; [|exact I].
  induction links as [|l links IHl]; cbn [map]; constructor; [|exact IHl].
  cbn [markLink link_status]. intros -> ->. reflexivity.
Qed.

End MarkingClaims.

(* ================================================================= *)
(** ** Counting the pages of a selection *)

Section SelectionCount.

Lemma includes_In (selectedUrls : list string) (u : string) :
  includes selectedUrls u = true <-> In u selectedUrls.
Proof.
  unfold includes. rewrite existsb_exists. split.
  - intros (v & Hv & Heq). apply String.eqb_eq in Heq. now subst.
  - intros Hu. exists u. split; [exact Hu | apply String.eqb_refl].
Qed.

Lemma filterByUrls_urls (selectedUrls : list string)
    (pages : list DiscoveredPage) :
  map url (filterByUrls selectedUrls pages)
  = filter (includes selectedUrls) (map url pages).
Proof.
  unfold filterByUrls.
  induction pages as [|p pages IH]; cbn [filter map]; [reflexivity|].
  destruct (includes selectedUrls (url p)); cbn [map]; now rewrite IH.
Qed.

(** When the selection lists, without repetition, urls of discovered
    pages, and no two discovered pages share a url, the crawl payload has
    as many pages as the selection has urls. *)
Lemma filterByUrls_length (selectedUrls : list string)
    (pages : list DiscoveredPage) :
  NoDup selectedUrls ->
  NoDup (map url pages) ->
  incl selectedUrls (map url pages) ->
  List.length (filterByUrls selectedUrls pages) = List.length selectedUrls.
Proof.
  intros Hsel Hpages Hincl.
  rewrite <- (length_map url), filterByUrls_urls.
  apply Permutation_length, NoDup_Permutation;
    [now apply NoDup_filter | exact Hsel |].
  intros u. rewrite filter_In, includes_In. split; [tauto|].
  intros Hu. split; [now apply Hincl | exact Hu].
Qed.

Lemma ascii_utf8_byte_length (md : JsString) :
  is_ascii md -> utf8_byte_length md = List.length md.
Proof.
  induction 1 as [|c rest Hc _ IH]; cbn [utf8_byte_length List.length];
    [reflexivity|].
  apply N.ltb_lt in Hc. rewrite Hc. now rewrite IH.
Qed.

End SelectionCount.

(* ================================================================= *)
(** ** Claims about the crawl orchestrator *)

Section CrawlClaims.

Variable formatBytes : nat -> string.
Variable saveMarkdown : string -> JsString -> Awaited unit.
Variable fetch_crawl : list DiscoveredPage -> Awaited CrawlResponse.

(** Whatever the endpoints answer, the handler leaves every link with a
    status and the busy flag cleared. *)
Lemma handleCrawlSelected_links_defined (selectedUrls : list string)
    (s : State) :
  let s' :=
    after (handleCrawlSelected formatBytes saveMarkdown fetch_crawl
             selectedUrls) s in
  links_defined (discoveredPages s') /\ isCrawling s' = false.
Proof.
  cbv zeta. rewrite handleCrawlSelected_run.
  destruct (thrown_by_exchange _) as [e|];
    [|destruct (saveMarkdown _ _)];
    split; try reflexivity; apply markSelected_links_defined.
Qed.

(** C1: when the crawl request fails (the fetch rejects or the response
    is not a 2xx one), the pages and links stay the same ones, every page
    and link named by the selection has status 'error', the error counter
    grows by one, one destructive notification is emitted, and no page of
    the selection is credited as crawled (nor is the crawled count
    changed). *)
Theorem C1_failed_crawl_marks_selection_error (selectedUrls : list string)
    (s : State) :
  crawl_request_fails
    (fetch_crawl (filterByUrls selectedUrls (discoveredPages s))) ->
  let s' :=
    after (handleCrawlSelected formatBytes saveMarkdown fetch_crawl
             selectedUrls) s in
  shape (discoveredPages s') = shape (discoveredPages s) /\
  selection_marked selectedUrls error (discoveredPages s') /\
  errorsEncountered (stats s') = errorsEncountered (stats s) + 1 /\
  (exists msg,
      toasts s' = toasts s ++ [mkToast "Error" msg (Some destructive)]) /\
  Forall (fun p => includes selectedUrls (url p) = true ->
                   status p <> crawled) (discoveredPages s') /\
  pagesCrawled (stats s') = pagesCrawled (stats s).
Proof.
  intros Hfail s'. subst s'.
  rewrite handleCrawlSelected_run.
  destruct (request_fails_throws _ Hfail) as [e ->].
  destruct (failed_state_facts selectedUrls e s)
    as (Hshape & Hmarked & Herr & Htoast & Hcount).
  repeat split; auto.
  - eexists. exact Htoast.
  - now apply selection_marked_error_not_crawled.
Qed.

(** C8: a 200 answer of the crawl endpoint that carries a non-empty
    [error] ends exactly as a non-2xx answer with the same body does: the
    selection is marked 'error' and a destructive notification with the
    error text is emitted. *)
Theorem C8_error_field_in_ok_response_is_failure
    (selectedUrls : list string) (s : State)
    (response : CrawlResponse) (data : CrawlData) :
  fetch_crawl (filterByUrls selectedUrls (discoveredPages s))
    = Resolved response ->
  crawl_ok response = true ->
  crawl_json response = Resolved data ->
  error_present (c_error data) = true ->
  let s' :=
    after (handleCrawlSelected formatBytes saveMarkdown fetch_crawl
             selectedUrls) s in
  (forall fetch_non_2xx,
      fetch_non_2xx (filterByUrls selectedUrls (discoveredPages s))
        = Resolved (mkCrawlResponse false (Resolved data)) ->
      after (handleCrawlSelected formatBytes saveMarkdown fetch_non_2xx
               selectedUrls) s = s') /\
  shape (discoveredPages s') = shape (discoveredPages s) /\
  selection_marked selectedUrls error (discoveredPages s') /\
  errorsEncountered (stats s') = errorsEncountered (stats s) + 1 /\
  (exists msg,
      c_error data = Some msg /\
      toasts s' = toasts s ++ [mkToast "Error" msg (Some destructive)]).
Proof.
  intros Hfetch Hok Hjson Herr s'. subst s'.
  rewrite handleCrawlSelected_run, Hfetch.
  cbv [thrown_by_exchange]. rewrite Hjson, Hok, Herr. cbn [negb].
  destruct (c_error data) as [[|c msg]|] eqn:Hmsg; try discriminate.
  split.
  - intros fetch_non_2xx Hfetch'.
    rewrite handleCrawlSelected_run, Hfetch'.
    cbv [thrown_by_exchange]. cbn [crawl_json crawl_ok negb].
    rewrite Hmsg. reflexivity.
  - destruct (failed_state_facts selectedUrls (new_Error (String c msg)) s)
      as (Hshape & Hmarked & Hcount & Htoast & _).
    repeat split; auto. eexists. split; [reflexivity | exact Htoast].
Qed.

(** When the exchange succeeds and the markdown cannot be saved, the
    handler stops at the state of the pending pass: no status is marked
    'crawled', the stats and the markdown are the old ones, and the
    notifications are the persistence failure followed by 'Crawling
    Complete'. *)
Lemma persistence_failure_state (selectedUrls : list string) (s : State)
    (response : CrawlResponse) (data : CrawlData) (e : Thrown) :
  fetch_crawl (filterByUrls selectedUrls (discoveredPages s))
    = Resolved response ->
  crawl_ok response = true ->
  crawl_json response = Resolved data ->
  error_present (c_error data) = false ->
  saveMarkdown (st_url s) (markdown_or_empty (c_markdown data))
    = Rejected e ->
  after (handleCrawlSelected formatBytes saveMarkdown fetch_crawl
           selectedUrls) s
  = unsaved_state selectedUrls s.
Proof.
  intros Hfetch Hok Hjson Herr Hsave.
  rewrite handleCrawlSelected_run, Hfetch.
  cbv [thrown_by_exchange returned_markdown].
  rewrite Hjson, Hok, Herr. cbn [negb]. now rewrite Hsave.
Qed.

(** C5, as the code has it: after a crawl that succeeded and was saved,
    [pagesCrawled] is the number of discovered pages whose url is in the
    selection, and [dataExtracted] is [formatBytes] of the length of the
    markdown in UTF-16 code units.  That count is the size of the selection
    when the selection lists distinct urls of discovered pages with
    distinct urls, and that length is the byte length for ASCII
    markdown. *)
Theorem C5_stats_after_successful_crawl (selectedUrls : list string)
    (s : State) (response : CrawlResponse) (data : CrawlData) :
  fetch_crawl (filterByUrls selectedUrls (discoveredPages s))
    = Resolved response ->
  crawl_ok response = true ->
  crawl_json response = Resolved data ->
  error_present (c_error data) = false ->
  saveMarkdown (st_url s) (markdown_or_empty (c_markdown data))
    = Resolved tt ->
  let md := markdown_or_empty (c_markdown data) in
  let s' :=
    after (handleCrawlSelected formatBytes saveMarkdown fetch_crawl
             selectedUrls) s in
  pagesCrawled (stats s')
    = List.length (filterByUrls selectedUrls (discoveredPages s)) /\
  dataExtracted (stats s') = formatBytes (List.length md) /\
  (NoDup selectedUrls -> NoDup (map url (discoveredPages s)) ->
   incl selectedUrls (map url (discoveredPages s)) ->
   pagesCrawled (stats s') = List.length selectedUrls) /\
  (is_ascii md ->
   dataExtracted (stats s') = formatBytes (utf8_byte_length md)).
Proof.
  intros Hfetch Hok Hjson Herr Hsave md s'. subst md s'.
  rewrite handleCrawlSelected_run, Hfetch.
  cbv [thrown_by_exchange returned_markdown].
  rewrite Hjson, Hok, Herr. cbn [negb]. rewrite Hsave.
  cbv [saved_state]. cbn [stats pagesCrawled dataExtracted].
  repeat split.
  - intros. now apply filterByUrls_length.
  - intros Hascii. now rewrite ascii_utf8_byte_length.
Qed.

End CrawlClaims.

(* ================================================================= *)
(** ** Claims about discovery from the page *)

Section DiscoveryClaims.

Variable validateUrl : string -> bool.
Variable fetch_discover : string -> JsNumber -> Awaited DiscoverResponse.

Ltac run_submit :=
  cbv [after handleSubmit discover_body
       bind ret throw get modify await try_catch try_finally when
       setUrl setIsProcessing setDiscoveredPages setStats setMarkdown toast
       fst snd];
  cbn [discoveredPages st_url isProcessing isCrawling markdown stats toasts].

(** The [catch] block of [handleSubmit] emits exactly one destructive
    notification and changes nothing else. *)
Lemma discover_catch_toast (err : Thrown) (s : State) :
  exists t,
    variant t = Some destructive /\
    discover_catch err s =
    (Normal tt,
     mkState (st_url s) (isProcessing s) (discoveredPages s) (isCrawling s)
       (markdown s) (stats s) (toasts s ++ [t])).
Proof.
  unfold discover_catch.
  destruct err as [name message stack|];
    [destruct (negb (string_includes message "Failed to discover pages"))|];
    eexists; (split; [|reflexivity]); reflexivity.
Qed.

(** C6, as the code has it: when a valid url is submitted and the
    discovery request fails, the collection of discovered pages is empty
    afterwards (the previous result is discarded when the submission
    starts and nothing of the failed answer is installed), the stats are
    the old ones, the busy flag is cleared, and at least one notification
    is emitted, each of them destructive. *)
Theorem C6_failed_discovery_clears_pages (submittedUrl : string)
    (depth : JsNumber) (s : State) :
  validateUrl submittedUrl = true ->
  discovery_fails (fetch_discover submittedUrl depth) ->
  let s' :=
    after (handleSubmit validateUrl fetch_discover submittedUrl depth) s in
  discoveredPages s' = [] /\
  stats s' = stats s /\
  isProcessing s' = false /\
  exists emitted,
    toasts s' = toasts s ++ emitted /\
    emitted <> [] /\
    Forall (fun t => variant t = Some destructive) emitted.
Proof.
  intros Hvalid Hfail s'. subst s'. run_submit. rewrite Hvalid. cbn [negb].
  unfold discovery_fails in Hfail.
  destruct (fetch_discover submittedUrl depth) as [response|e].
  - destruct (disc_json response) as [data|e].
    + rewrite Hfail. cbn [negb].
      match goal with
      | |- context [discover_catch ?e ?st] =>
          destruct (discover_catch_toast e st) as (t & Ht & ->)
      end.
      cbn [discoveredPages st_url isProcessing isCrawling markdown stats
           toasts snd].
      repeat split. eexists. rewrite <- app_assoc.
      split; [reflexivity|]. split; [discriminate|].
      repeat constructor. exact Ht.
    + match goal with
      | |- context [discover_catch ?e ?st] =>
          destruct (discover_catch_toast e st) as (t & Ht & ->)
      end.
      cbn [discoveredPages st_url isProcessing isCrawling markdown stats
           toasts snd].
      repeat split. eexists.
      split; [reflexivity|]. split; [discriminate|].
      repeat constructor. exact Ht.
  - match goal with
    | |- context [discover_catch ?e ?st] =>
        destruct (discover_catch_toast e st) as (t & Ht & ->)
    end.
    cbn [discoveredPages st_url isProcessing isCrawling markdown stats
         toasts snd].
    repeat split. eexists.
    split; [reflexivity|]. split; [discriminate|].
    repeat constructor. exact Ht.
Qed.

End DiscoveryClaims.

(* ================================================================= *)
(** ** The claims on the example discovery result *)

Example parseInt_examples :
  parseInt (lit "  -42px") = Some (-42)%Z /\
  parseInt (lit "0x1F") = Some 31%Z /\
  parseInt (lit "abc") = None /\
  option_map parseInt (ToString (JsArr [JsInt 4; JsInt 9]))
    = Some (Some 4%Z) /\
  option_map parseInt (ToString (JsInt (-120))) = Some (Some (-120)%Z).
Proof. repeat split. Qed.

Example number_to_string_examples :
  map (fun x => string_of_units (number_to_string x))
    [of_Z 0; of_Z (-120); of_Z 1000;
     Finite false (D1 Nil) 22;
     Finite false (D1 (D2 (D3 (D4 (D5 (D6 Nil)))))) 3;
     Finite false (D5 Nil) 0;
     Finite true (D1 Nil) (-5);
     Finite false (D1 (D2 Nil)) (-8);
     Infinite true; NotANumber]
  = ["0"; "-120"; "1000"; "1e+21"; "123.456"; "0.5"; "-0.000001";
     "1.2e-9"; "-Infinity"; "NaN"]%string.
Proof. reflexivity. Qed.

Example validatedDepth_examples :
  map (fun d => validatedDepth (default_depth d))
    [JsInt 7; JsInt (-2); JsInt 4; JsInt 0; JsUndefined; JsNull;
     JsStr (lit "abc"); JsStr (lit "2"); JsStr (lit "4abc");
     JsNum (Finite false (D1 Nil) 22);
     JsNum (Finite false (D7 (D5 Nil)) 1);
     JsArr [JsInt 4; JsInt 9];
     JsObj [("depth", JsInt 2)];
     JsObj [("toString", JsInt 2)]]
  = [Some 5; Some 1; Some 4; Some 3; Some 3; Some 3; Some 3; Some 2; Some 4;
     Some 1; Some 5; Some 4; Some 3; None]%Z.
Proof. reflexivity. Qed.

(** C3 as stated fails for a link without a status: marking the selection
    [a] as 'crawled' turns the link [b] of page [a], which the selection
    does not name, from unassigned into 'pending'. *)
Lemma C3_unselected_link_is_promoted :
  includes [url_a] (href link_b) = false /\
  link_status link_b = None /\
  map internalLinks (markSelected [url_a] crawled [page_a])
    = [Some [mkLink url_b (Some pending)]] /\
  link_status (mkLink url_b (Some pending)) <> link_status link_b.
Proof. repeat split; discriminate. Qed.

(** C4 as stated fails at depth 0: the route sends 3, and
    [clamp(0, 1, 5)] is 1. *)
Lemma C4_depth_zero_sends_three :
  map req_depth
    (fst (POST node
            (Resolved (mkRequestBody (JsStr (lit "https://example.com"))
                         (JsInt 0)))
            (fun _ => Rejected NonError))) = [3%Z]
  /\ [3%Z] <> [clamp 0 1 5].
Proof. split; [reflexivity | discriminate]. Qed.

(** C4 at the depths 7, 7.5, 1e21, 0.5, '4abc', 'abc' and an object with a
    [toString] key. *)
Lemma C4_witness :
  let sent depth :=
    map req_depth
      (fst (POST node (Resolved (docs_body depth)) backend_finds_nothing)) in
  sent (JsInt 7) = [clamp 7 1 5] /\
  sent (JsNum (Finite false (D7 (D5 Nil)) 1)) = [5%Z] /\
  sent (JsNum (Finite false (D1 Nil) 22)) = [1%Z] /\
  sent (JsNum (Finite false (D5 Nil) 0)) = [3%Z] /\
  sent (JsStr (lit "4abc")) = [4%Z] /\
  sent (JsStr (lit "abc")) = [3%Z] /\
  fst (POST node (Resolved (docs_body (JsObj [("toString", JsInt 2)])))
         backend_finds_nothing) = [].
Proof.
  intros sent. subst sent. cbv beta.
  destruct (C4_depth_sent_to_backend node (Resolved (docs_body (JsInt 7)))
              backend_finds_nothing) as [_ H1].
  destruct (H1 _ eq_refl eq_refl) as (Hint & _).
  destruct (C4_depth_sent_to_backend node
              (Resolved (docs_body (JsNum (Finite false (D7 (D5 Nil)) 1))))
              backend_finds_nothing) as [_ H2].
  destruct (H2 _ eq_refl eq_refl) as (_ & Hplain & _).
  destruct (C4_depth_sent_to_backend node
              (Resolved (docs_body (JsNum (Finite false (D1 Nil) 22))))
              backend_finds_nothing) as [_ H3].
  destruct (H3 _ eq_refl eq_refl) as (_ & _ & Hexp & _).
  destruct (C4_depth_sent_to_backend node
              (Resolved (docs_body (JsNum (Finite false (D5 Nil) 0))))
              backend_finds_nothing) as [_ H0].
  destruct (H0 _ eq_refl eq_refl) as (_ & _ & _ & Hsmall & _).
  destruct (C4_depth_sent_to_backend node
              (Resolved (docs_body (JsStr (lit "4abc"))))
              backend_finds_nothing) as [_ H4].
  destruct (H4 _ eq_refl eq_refl) as (_ & _ & _ & _ & Htext & _).
  destruct (C4_depth_sent_to_backend node
              (Resolved (docs_body (JsStr (lit "abc"))))
              backend_finds_nothing) as [_ H5].
  destruct (H5 _ eq_refl eq_refl) as (_ & _ & _ & _ & _ & Hnon & _).
  destruct (C4_depth_sent_to_backend node
              (Resolved (docs_body (JsObj [("toString", JsInt 2)])))
              backend_finds_nothing) as [_ H6].
  destruct (H6 _ eq_refl eq_refl) as (_ & _ & _ & _ & _ & _ & Hthrow).
  split; [apply (Hint 7%Z eq_refl); [discriminate | reflexivity]|].
  split; [apply (Hplain false (D7 (D5 Nil)) 1%Z eq_refl);
          [split; reflexivity || discriminate | discriminate]|].
  split; [apply (Hexp false (D1 Nil) 22%Z eq_refl);
          [left; reflexivity | discriminate]|].
  split; [apply (Hsmall false (D5 Nil) 0%Z eq_refl); right;
          split; reflexivity || discriminate|].
  split.
  { apply (Htext (lit "4abc") false (D4 Nil) eq_refl).
    exists [], [], (lit "abc"). repeat split; auto. discriminate. }
  split; [apply Hnon; reflexivity|].
  destruct (Hthrow _ eq_refl eq_refl) as [Hnone _]. exact Hnone.
Defined.

(** C7 for a backend that finds nothing and gives no message. *)
Lemma C7_witness :
  let answer :=
    snd (POST node (Resolved (docs_body JsUndefined))
           backend_finds_nothing) in
  res_status answer = 200%Z /\
  body_pages (res_body answer) = Some [] /\
  body_message (res_body answer) = Some "No pages discovered" /\
  body_error (res_body answer) = None.
Proof.
  exact (C7_empty_discovery_is_success node (docs_body JsUndefined)
           backend_finds_nothing 3%Z
           (mkBackendResponse 200
              (Resolved (mkBackendData None (Some []) None)))
           (mkBackendData None (Some []) None)
           eq_refl eq_refl eq_refl eq_refl eq_refl eq_refl).
Defined.

(** C10 for a body without [url]. *)
Lemma C10_witness :
  let body := mkRequestBody JsUndefined (JsInt 2) in
  truthy (body_url body) = false /\
  fst (POST node (Resolved body) backend_finds_nothing) = [] /\
  res_status (snd (POST node (Resolved body) backend_finds_nothing))
    = 400%Z /\
  body_error (res_body (snd (POST node (Resolved body)
                               backend_finds_nothing)))
    = Some "URL is required".
Proof.
  split; [reflexivity|].
  exact (C10_missing_url_is_rejected node
           (mkRequestBody JsUndefined (JsInt 2))
           backend_finds_nothing eq_refl).
Defined.

(** C1 for the selection [a], [c] and a non-2xx answer. *)
Lemma C1_witness :
  let selection := [url_a; url_c] in
  let s' :=
    after (handleCrawlSelected bytes_label save_ok crawl_bad_gateway
             selection) discovered in
  crawl_request_fails
    (crawl_bad_gateway (filterByUrls selection (discoveredPages discovered)))
  /\ selection_marked selection error (discoveredPages s')
  /\ map status (discoveredPages s') = [error; error]
  /\ errorsEncountered (stats s') = 1
  /\ toasts s' = [mkToast "Error" "backend down" (Some destructive)].
Proof.
  intros selection s'.
  assert (Hfail : crawl_request_fails
            (crawl_bad_gateway
               (filterByUrls selection (discoveredPages discovered))))
    by reflexivity.
  destruct (C1_failed_crawl_marks_selection_error bytes_label save_ok
              crawl_bad_gateway selection discovered Hfail)
    as (_ & Hmarked & _).
  split; [exact Hfail|]. split; [exact Hmarked|]. repeat split.
Defined.

(** C2: with the page [a] selected, a crawl that returns ["hello"] and a
    storage that rejects, the handler announces the persistence failure
    and then 'Crawling Complete', and leaves page [a] 'pending': the pass
    that marks the selection 'crawled' comes after the save in the same
    [try] block and is skipped. *)
Theorem C2_persistence_failure_leaves_selection_pending :
  let s' :=
    after (handleCrawlSelected bytes_label save_fails crawl_hello [url_a])
      discovered in
  discoveredPages s'
    = [mkPage url_a pending (Some [mkLink url_b (Some pending)]); page_c] /\
  toasts s'
    = [mkToast "Error" "Failed to save content for later use"
         (Some destructive);
       mkToast "Crawling Complete"
         "All pages have been crawled and processed" None] /\
  stats s' = stats discovered /\
  markdown s' = markdown discovered.
Proof. repeat split. Qed.

(** The same crawl with a storage that accepts marks page [a]
    'crawled'. *)
Example saved_crawl_marks_selection_crawled :
  map status
    (discoveredPages
       (after (handleCrawlSelected bytes_label save_ok crawl_hello [url_a])
          discovered))
  = [crawled; not_started].
Proof. reflexivity. Qed.

(** C5 as stated fails when the selection names something that is not a
    discovered page: with page [a] and the href [b] of its link selected,
    one page is crawled and [pagesCrawled] is 1, the selection has 2
    entries. *)
Lemma C5_pages_crawled_is_not_selection_size :
  let selection := [url_a; url_b] in
  let s' :=
    after (handleCrawlSelected bytes_label save_ok crawl_hello selection)
      discovered in
  pagesCrawled (stats s') = 1 /\
  List.length selection = 2 /\
  pagesCrawled (stats s') <> List.length selection.
Proof. repeat split. discriminate. Qed.

(** The length the code reads is not a byte length outside ASCII: the one
    code unit of ["é"] takes two bytes. *)
Example markdown_length_is_in_code_units :
  List.length [233%N] = 1 /\ utf8_byte_length [233%N] = 2.
Proof. split; reflexivity. Qed.

(** C5 for the selection [a], [c] and the markdown ["hello"]. *)
Lemma C5_witness :
  let selection := [url_a; url_c] in
  let s' :=
    after (handleCrawlSelected bytes_label save_ok crawl_hello selection)
      discovered in
  pagesCrawled (stats s') = 2 /\
  dataExtracted (stats s') = bytes_label 5 /\
  pagesCrawled (stats s') = List.length selection /\
  dataExtracted (stats s') = bytes_label (utf8_byte_length (lit "hello")).
Proof.
  intros selection s'.
  destruct (C5_stats_after_successful_crawl bytes_label save_ok crawl_hello
              selection discovered
              (mkCrawlResponse true
                 (Resolved (mkCrawlData (Some (lit "hello")) None)))
              (mkCrawlData (Some (lit "hello")) None)
              eq_refl eq_refl eq_refl eq_refl eq_refl)
    as (Hcount & Hdata & Hsize & Hbytes).
  split; [exact Hcount|]. split; [exact Hdata|]. split.
  - apply Hsize.
    + repeat constructor; cbn; intuition discriminate.
    + repeat constructor; cbn; intuition discriminate.
    + intros u Hu. exact Hu.
  - apply Hbytes. repeat constructor.
Defined.

(** C8 for a 200 answer that carries the error ['backend down']. *)
Lemma C8_witness :
  let s' :=
    after (handleCrawlSelected bytes_label save_ok crawl_ok_with_error
             [url_a]) discovered in
  s' = after (handleCrawlSelected bytes_label save_ok crawl_bad_gateway
                [url_a]) discovered /\
  map status (discoveredPages s') = [error; not_started] /\
  toasts s' = [mkToast "Error" "backend down" (Some destructive)].
Proof.
  intros s'.
  destruct (C8_error_field_in_ok_response_is_failure bytes_label save_ok
              crawl_ok_with_error [url_a] discovered
              (mkCrawlResponse true
                 (Resolved (mkCrawlData (Some (lit "partial"))
                              (Some "backend down"))))
              (mkCrawlData (Some (lit "partial")) (Some "backend down"))
              eq_refl eq_refl eq_refl eq_refl)
    as (Hsame & _).
  split; [|split; reflexivity].
  symmetry.
  apply (Hsame (fun _ =>
                  Resolved (mkCrawlResponse false
                              (Resolved (mkCrawlData (Some (lit "partial"))
                                           (Some "backend down")))))).
  reflexivity.
Defined.

(** C6 as stated fails as soon as there was a previous result: a failed
    discovery leaves the collection empty, not as it was. *)
Lemma C6_failed_discovery_discards_pages :
  let s' :=
    after (handleSubmit always_valid discover_unreachable
             "https://docs.example.com" (of_Z 3)) discovered in
  discoveredPages discovered = [page_a; page_c] /\
  discoveredPages s' = [] /\
  discoveredPages s' <> discoveredPages discovered.
Proof. repeat split. discriminate. Qed.

(** C6 for a discover endpoint that cannot be reached. *)
Lemma C6_witness :
  let s' :=
    after (handleSubmit always_valid discover_unreachable
             "https://docs.example.com" (of_Z 3)) discovered in
  always_valid "https://docs.example.com" = true /\
  discovery_fails (discover_unreachable "https://docs.example.com" (of_Z 3)) /\
  discoveredPages s' = [] /\
  stats s' = stats discovered /\
  toasts s' = [mkToast "Error" "fetch failed" (Some destructive)].
Proof.
  intros s'.
  destruct (C6_failed_discovery_clears_pages always_valid
              discover_unreachable "https://docs.example.com" (of_Z 3) discovered
              eq_refl I)
    as (Hpages & Hstats & _).
  split; [reflexivity|]. split; [exact I|].
  split; [exact Hpages|]. split; [exact Hstats | reflexivity].
Defined.

(* ================================================================= *)
(** ** More about the discover route *)

Section RouteMore.

Variable engine : Engine.
Variable fetch : BackendRequest -> Awaited BackendResponse.

(** X1: the route sends at most one request to the backend.  It sends one
    exactly when the body parses, has a truthy url, and [String(depth)]
    does not throw; that request carries the url as [JSON.stringify]
    writes it. *)
Theorem route_sends_at_most_one_request (request_json : Awaited RequestBody) :
  let sent := fst (POST engine request_json fetch) in
  (List.length sent <= 1)%nat /\
  (sent <> [] <->
   exists body,
     request_json = Resolved body /\ truthy (body_url body) = true /\
     ToString (default_depth (body_depth body)) <> None)
  /\
  forall body, request_json = Resolved body ->
    Forall (fun r => req_url r = as_json (body_url body)) sent.
Proof.
  cbv zeta. rewrite POST_requests.
  destruct request_json as [body|e].
  - unfold validatedDepth.
    destruct (truthy (body_url body)) eqn:Hurl;
      [destruct (ToString (default_depth (body_depth body))) eqn:Htext|];
      cbn [List.length]; repeat split; try lia.
    + intros _. exists body. repeat split; [assumption|].
      rewrite Htext. discriminate.
    + intros _. discriminate.
    + intros b [= <-]. repeat constructor.
    + intros Hne. now elim Hne.
    + intros (b & [= <-] & _ & Hb). congruence.
    + intros b _. constructor.
    + intros Hne. now elim Hne.
    + intros (b & [= <-] & Hb & _). congruence.
    + intros b _. constructor.
  - cbn [List.length]. repeat split; try lia.
    + intros Hne. now elim Hne.
    + intros (b & Hb & _). discriminate.
    + intros b Hb. discriminate.
Qed.

(** X2: the answer is a success or an error, never a mix: either it has
    status 200, a [pages] and a [message] key and no [error] key, or it has
    another status, an [error] key and no [message] key. *)
Theorem route_answer_is_success_or_error
    (request_json : Awaited RequestBody) :
  let answer := snd (POST engine request_json fetch) in
  (res_status answer = 200%Z /\
   body_error (res_body answer) = None /\
   body_pages (res_body answer) <> None /\
   body_message (res_body answer) <> None)
  \/
  (res_status answer <> 200%Z /\
   body_error (res_body answer) <> None /\
   body_message (res_body answer) = None).
Proof.
  cbv zeta. unfold POST, POST_try.
  destruct request_json as [body|e];
    [|right; repeat split; discriminate].
  destruct (truthy (body_url body)); cbn [negb];
    [|right; repeat split; discriminate].
  destruct (validatedDepth _) as [validated|];
    [|right; repeat split; discriminate].
  destruct (fetch _) as [response|e];
    [|right; repeat split; discriminate].
  destruct (resp_ok response) eqn:Hok; cbn [negb];
    destruct (resp_json response) as [data|e];
    try (right; repeat split; discriminate).
  - left. repeat split; discriminate.
  - right. unfold json.
    destruct (status_in_range (resp_status response)); cbn [negb];
      [|repeat split; discriminate].
    destruct (status_forbids_body (resp_status response));
      [repeat split; discriminate|].
    cbn [snd res_status res_body body_error body_message].
    repeat split; try discriminate.
    unfold resp_ok in Hok. intros Hs. rewrite Hs in Hok. discriminate.
Qed.

(** X3: whichever [await] rejects (reading the request, calling the
    backend, or reading its answer), the route answers with status 500, the
    message of the error (or 'Failed to discover pages' when what was thrown
    is not an Error), its name as [errorType], its stack as [details], and
    an empty [pages] array. *)
Theorem route_rejection_becomes_500 (request_json : Awaited RequestBody)
    (e : Thrown) :
  (request_json = Rejected e \/
   exists body validated,
     request_json = Resolved body /\ truthy (body_url body) = true /\
     validatedDepth (default_depth (body_depth body)) = Some validated /\
     let sent := mkBackendRequest (as_json (body_url body)) validated in
     (fetch sent = Rejected e \/
      exists response,
        fetch sent = Resolved response /\ resp_json response = Rejected e)) ->
  let answer := snd (POST engine request_json fetch) in
  res_status answer = 500%Z /\
  body_pages (res_body answer) = Some [] /\
  match e with
  | ErrorObject name message stack =>
      body_error (res_body answer) = Some message /\
      body_errorType (res_body answer) = Some name /\
      body_details (res_body answer) = stack
  | NonError =>
      body_error (res_body answer) = Some "Failed to discover pages" /\
      body_errorType (res_body answer) = Some "Unknown" /\
      body_details (res_body answer) = None
  end.
Proof.
  intros H. cbv zeta.
  assert (Hans : snd (POST engine request_json fetch) = failure e).
  { unfold POST, POST_try.
    destruct H as [-> | (body & validated & -> & Hurl & Hdepth &
                         [Hf | (response & Hf & Hj)])];
      [reflexivity | |]; rewrite Hurl, Hdepth; cbn [negb]; rewrite Hf;
      [reflexivity|].
    destruct (negb (resp_ok response)); now rewrite Hj. }
  rewrite Hans. destruct e; repeat split.
Qed.

(** X4: what the route makes of a non-2xx answer of the backend.  When
    the body of that answer cannot be read, the route answers as for any
    rejection: status 500 with the parser's error.  Otherwise a status from
    300 to 599 other than 304 is passed on, with the backend's [error], or
    'Failed to discover pages' when the backend gives none or an empty
    one, and without a [pages] key.  A status that no response with a body
    can carry is not passed on: building the answer throws, a [TypeError]
    for 304 and a [RangeError] for a status below 200 or above 599, and
    the route answers 500 with that error and an empty [pages] array. *)
Theorem route_mirrors_backend_error (body : RequestBody) (validated : Z)
    (response : BackendResponse) :
  truthy (body_url body) = true ->
  validatedDepth (default_depth (body_depth body)) = Some validated ->
  fetch (mkBackendRequest (as_json (body_url body)) validated)
    = Resolved response ->
  resp_ok response = false ->
  let answer := snd (POST engine (Resolved body) fetch) in
  let st := resp_status response in
  match resp_json response with
  | Rejected e => answer = failure e
  | Resolved errorData =>
      ((300 <= st <= 599)%Z /\ st <> 304%Z ->
       res_status answer = st /\
       body_error (res_body answer)
         = Some (str_or (data_error errorData) "Failed to discover pages") /\
       body_error (res_body answer) <> Some "" /\
       body_pages (res_body answer) = None /\
       body_errorType (res_body answer) = None) /\
      (st = 304%Z ->
       answer = failure (TypeError (null_body_status engine st))) /\
      ((st < 200)%Z \/ (599 < st)%Z ->
       answer = failure (RangeError (status_out_of_range engine st)))
  end /\
  ((300 <= st <= 599)%Z /\ st <> 304%Z \/ st = 304%Z \/
   (st < 200)%Z \/ (599 < st)%Z).
Proof.
  intros Hurl Hdepth Hfetch Hok. cbv zeta. unfold POST, POST_try.
  rewrite Hurl, Hdepth. cbn [negb]. rewrite Hfetch, Hok. cbn [negb].
  unfold resp_ok in Hok. split; [|lia].
  destruct (resp_json response) as [errorData|e]; [|reflexivity].
  unfold json, status_in_range, status_forbids_body.
  refine (conj _ (conj _ _)).
  - intros [Hrange Hnot].
    replace ((200 <=? resp_status response)
             && (resp_status response <=? 599))%Z with true by lia.
    replace ((resp_status response =? 101) || (resp_status response =? 103)
             || (resp_status response =? 204)
             || (resp_status response =? 205)
             || (resp_status response =? 304))%Z with false by lia.
    cbn [negb snd res_status res_body body_error body_pages body_errorType].
    repeat split.
    destruct (data_error errorData) as [[|c m]|]; discriminate.
  - intros ->. reflexivity.
  - intros Hout.
    replace ((200 <=? resp_status response)
             && (resp_status response <=? 599))%Z with false by lia.
    reflexivity.
Qed.

(** X5: a 2xx answer of the backend is passed on with status 200 and with
    the pages as they came, in order; a missing [pages] key becomes the
    empty array.  The message is the backend's own when it gives a
    non-empty one; otherwise it counts the pages, and reads 'Found
    undefined pages' when the key is missing. *)
Theorem route_passes_pages_through (body : RequestBody) (validated : Z)
    (response : BackendResponse) (data : BackendData) :
  truthy (body_url body) = true ->
  validatedDepth (default_depth (body_depth body)) = Some validated ->
  fetch (mkBackendRequest (as_json (body_url body)) validated)
    = Resolved response ->
  resp_ok response = true ->
  resp_json response = Resolved data ->
  let answer := snd (POST engine (Resolved body) fetch) in
  res_status answer = 200%Z /\
  (forall pages, data_pages data = Some pages ->
                 body_pages (res_body answer) = Some pages) /\
  (data_pages data = None -> body_pages (res_body answer) = Some []) /\
  (forall c m, data_message data = Some (String c m) ->
               body_message (res_body answer) = Some (String c m)) /\
  (data_message data = None \/ data_message data = Some "" ->
   body_message (res_body answer) =
   Some (match data_pages data with
         | Some [] => "No pages discovered"
         | Some pages =>
             ("Found " ++ string_of_nat (List.length pages) ++ " pages")%string
         | None => "Found undefined pages"
         end)).
Proof.
  intros Hurl Hdepth Hfetch Hok Hjson. cbv zeta. unfold POST, POST_try.
  rewrite Hurl, Hdepth. cbn [negb]. rewrite Hfetch, Hok. cbn [negb].
  rewrite Hjson.
  cbn [snd json res_status res_body body_pages body_message].
  unfold success_message.
  repeat split.
  - now intros pages ->.
  - now intros ->.
  - now intros c m ->.
  - now intros [-> | ->].
Qed.

(** X6: validating a depth twice changes nothing, and the integer depths
    that validation leaves as they are are exactly 1 to 5. *)
Theorem validatedDepth_idempotent_fixpoints :
  (forall depth validated,
     validatedDepth depth = Some validated ->
     validatedDepth (JsInt validated) = validatedDepth depth) /\
  (forall z, validatedDepth (JsInt z) = Some z <-> (1 <= z <= 5)%Z).
Proof.
  split.
  - intros depth validated Hv. pose proof (validatedDepth_range _ _ Hv) as Hr.
    rewrite Hv, validatedDepth_number by lia. unfold clamp.
    destruct (Z.eqb_spec validated 0); f_equal; lia.
  - intros z. split.
    + apply validatedDepth_range.
    + intros Hz. rewrite validatedDepth_number by lia. unfold clamp.
      destruct (Z.eqb_spec z 0); f_equal; lia.
Qed.

End RouteMore.

(* ================================================================= *)
(** ** More about the marking passes and the crawl payload *)

Section MarkingMore.

Lemma includes_app (l1 l2 : list string) (u : string) :
  includes (l1 ++ l2) u = includes l1 u || includes l2 u.
Proof. unfold includes. apply existsb_app. Qed.

Lemma markSelected_twice (selectedUrls : list string) (s1 s2 : Status)
    (pages : list DiscoveredPage) :
  markSelected selectedUrls s2 (markSelected selectedUrls s1 pages)
  = markSelected selectedUrls s2 pages.
Proof.
  unfold markSelected. rewrite map_map. apply map_ext. intros p.
  unfold markPage. cbn [url status internalLinks]. f_equal.
  - now destruct (includes selectedUrls (url p)).
  - destruct (internalLinks p) as [links|]; cbn [option_map]; [|reflexivity].
    f_equal. rewrite map_map. apply map_ext. intros l.
    unfold markLink. cbn [href link_status].
    now destruct (includes selectedUrls (href l)).
Qed.

(** X7: of two passes over the same selection only the later one shows:
    marking with [s1] and then with [s2] is marking with [s2]; in
    particular a pass is idempotent, and the 'pending' pass that opens
    every crawl leaves no trace once the outcome is marked. *)
Theorem markSelected_later_pass_wins (selectedUrls : list string)
    (s1 s2 : Status) (pages : list DiscoveredPage) :
  markSelected selectedUrls s2 (markSelected selectedUrls s1 pages)
  = markSelected selectedUrls s2 pages /\
  markSelected selectedUrls s1 (markSelected selectedUrls s1 pages)
  = markSelected selectedUrls s1 pages /\
  forall outcome,
    markSelected selectedUrls outcome
      (markSelected selectedUrls pending pages)
    = markSelected selectedUrls outcome pages.
Proof. repeat split; intros; apply markSelected_twice. Qed.

(** X8: marking one selection and then another with the same status is
    marking their union. *)
Theorem markSelected_union (sel1 sel2 : list string) (newStatus : Status)
    (pages : list DiscoveredPage) :
  markSelected sel1 newStatus (markSelected sel2 newStatus pages)
  = markSelected (sel1 ++ sel2) newStatus pages.
Proof.
  unfold markSelected. rewrite map_map. apply map_ext. intros p.
  unfold markPage. cbn [url status internalLinks]. f_equal.
  - rewrite includes_app.
    now destruct (includes sel1 (url p)), (includes sel2 (url p)).
  - destruct (internalLinks p) as [links|]; cbn [option_map]; [|reflexivity].
    f_equal. rewrite map_map. apply map_ext. intros l.
    unfold markLink. cbn [href link_status]. rewrite includes_app.
    now destruct (includes sel1 (href l)), (includes sel2 (href l)).
Qed.

(** X9: the crawl payload holds exactly the discovered pages whose url the
    selection names; it is empty for an empty selection, never longer than
    the collection, and building it commutes with a marking pass. *)
Theorem crawl_payload_facts (selectedUrls : list string)
    (pages : list DiscoveredPage) :
  (forall p, In p (filterByUrls selectedUrls pages) <->
             In p pages /\ In (url p) selectedUrls) /\
  filterByUrls [] pages = [] /\
  (List.length (filterByUrls selectedUrls pages) <= List.length pages)%nat /\
  (forall marked newStatus,
     filterByUrls selectedUrls (markSelected marked newStatus pages)
     = markSelected marked newStatus (filterByUrls selectedUrls pages)).
Proof.
  repeat split.
  - unfold filterByUrls in H. now apply filter_In in H.
  - unfold filterByUrls in H. apply filter_In in H.
    now apply includes_In.
  - intros [Hp Hu]. unfold filterByUrls. apply filter_In.
    split; [exact Hp | now apply includes_In].
  - unfold filterByUrls. induction pages; cbn; auto.
  - unfold filterByUrls. apply filter_length_le.
  - intros marked newStatus. unfold filterByUrls, markSelected.
    induction pages as [|p rest IH]; cbn [map filter]; [reflexivity|].
    cbn [markPage url].
    destruct (includes selectedUrls (url p)); cbn [map]; now rewrite IH.
Qed.

End MarkingMore.

(* ================================================================= *)
(** ** More about the crawl orchestrator *)

Section CrawlMore.

Variable formatBytes : nat -> string.
Variable saveMarkdown : string -> JsString -> Awaited unit.
Variable fetch_crawl : list DiscoveredPage -> Awaited CrawlResponse.

(** X10: whatever the crawl endpoint and the storage answer, the handler
    lets no exception escape, clears the crawling flag, leaves the seed
    url, the processing flag and the discovered count alone, keeps the
    notifications already emitted and adds at least one. *)
Theorem handleCrawlSelected_always_settles (selectedUrls : list string)
    (s : State) :
  let run := handleCrawlSelected formatBytes saveMarkdown fetch_crawl
               selectedUrls s in
  fst run = Normal tt /\
  isCrawling (snd run) = false /\
  st_url (snd run) = st_url s /\
  isProcessing (snd run) = isProcessing s /\
  subdomainsParsed (stats (snd run)) = subdomainsParsed (stats s) /\
  exists emitted,
    toasts (snd run) = toasts s ++ emitted /\ emitted <> [].
Proof.
  cbv [handleCrawlSelected crawl_body crawl_catch save_and_record
       bind ret throw get modify await try_catch try_finally when
       setIsCrawling setDiscoveredPages setStats setMarkdown toast].
  cbn [discoveredPages st_url isProcessing isCrawling markdown stats toasts].
  destruct (fetch_crawl _) as [response|e].
  - destruct (crawl_ok response); cbn [negb];
      destruct (crawl_json response) as [data|e];
      try (cbn; repeat split; eexists; split;
           [reflexivity | discriminate]).
    destruct (error_present (c_error data));
      [cbn; repeat split; eexists; split; [reflexivity | discriminate]|].
    destruct (saveMarkdown _ _) as [[]|e]; cbn; repeat split;
      eexists; rewrite <- ?app_assoc; (split; [reflexivity | discriminate]).
  - cbn. repeat split. eexists. split; [reflexivity | discriminate].
Qed.

(** X11: whatever the answers, the collection ends as one marking pass
    over what it was, with 'pending', 'crawled' or 'error'; so every url
    and href stays, and a page the selection does not name keeps its
    status. *)
Theorem handleCrawlSelected_frame (selectedUrls : list string) (s : State) :
  let s' :=
    after (handleCrawlSelected formatBytes saveMarkdown fetch_crawl
             selectedUrls) s in
  (exists newStatus,
      (newStatus = pending \/ newStatus = crawled \/ newStatus = error) /\
      discoveredPages s'
      = markSelected selectedUrls newStatus (discoveredPages s)) /\
  shape (discoveredPages s') = shape (discoveredPages s) /\
  Forall2 (fun p p' => includes selectedUrls (url p) = false ->
                       status p' = status p)
    (discoveredPages s) (discoveredPages s').
Proof.
  cbv zeta.
  assert (H : exists newStatus,
             (newStatus = pending \/ newStatus = crawled \/ newStatus = error)
             /\ discoveredPages
                  (after (handleCrawlSelected formatBytes saveMarkdown
                            fetch_crawl selectedUrls) s)
                = markSelected selectedUrls newStatus (discoveredPages s)).
  { rewrite handleCrawlSelected_run.
    destruct (thrown_by_exchange _) as [e|];
      [|destruct (saveMarkdown _ _)];
      cbv [failed_state saved_state unsaved_state]; cbn [discoveredPages];
      rewrite ?markSelected_twice; eauto. }
  destruct H as (newStatus & Hns & ->).
  split; [eauto|]. split; [apply markSelected_shape|].
  unfold markSelected.
  induction (discoveredPages s) as [|p rest IH]; cbn [map]; constructor;
    [|exact IH].
  cbn [markPage status]. now intros ->.
Qed.

(** X12: after a crawl that succeeded and was saved, every page and link
    named by the selection is 'crawled', the markdown cell holds what the
    endpoint returned (the empty string when the answer has no [markdown]
    key), the error counter is untouched, the crawled count does not exceed
    the number of pages, and two notifications, neither destructive, are
    emitted: 'Content Saved' and 'Crawling Complete'. *)
Theorem handleCrawlSelected_saved (selectedUrls : list string) (s : State)
    (response : CrawlResponse) (data : CrawlData) :
  fetch_crawl (filterByUrls selectedUrls (discoveredPages s))
    = Resolved response ->
  crawl_ok response = true ->
  crawl_json response = Resolved data ->
  error_present (c_error data) = false ->
  saveMarkdown (st_url s) (markdown_or_empty (c_markdown data))
    = Resolved tt ->
  let s' :=
    after (handleCrawlSelected formatBytes saveMarkdown fetch_crawl
             selectedUrls) s in
  selection_marked selectedUrls crawled (discoveredPages s') /\
  markdown s' = markdown_or_empty (c_markdown data) /\
  (c_markdown data = None ->
   markdown s' = [] /\ dataExtracted (stats s') = formatBytes 0 /\
   markdown_visible s' = false) /\
  errorsEncountered (stats s') = errorsEncountered (stats s) /\
  (pagesCrawled (stats s') <= List.length (discoveredPages s'))%nat /\
  (exists t1 t2,
      toasts s' = toasts s ++ [t1; t2] /\
      title t1 = "Content Saved" /\ title t2 = "Crawling Complete" /\
      variant t1 = None /\ variant t2 = None).
Proof.
  intros Hfetch Hok Hjson Herr Hsave. cbv zeta.
  rewrite handleCrawlSelected_run, Hfetch.
  cbv [thrown_by_exchange returned_markdown].
  rewrite Hjson, Hok, Herr. cbn [negb]. rewrite Hsave.
  cbv [saved_state markdown_visible].
  cbn [discoveredPages markdown stats toasts errorsEncountered pagesCrawled
       dataExtracted].
  repeat split.
  - apply markSelected_selection_marked.
  - now rewrite H.
  - now rewrite H.
  - now rewrite H.
  - unfold markSelected. rewrite !length_map.
    unfold filterByUrls. apply filter_length_le.
  - do 2 eexists. repeat split.
Qed.

(** X13: the text of the failure notification.  When the fetch rejects,
    or the body of the answer cannot be read, it is the message of the
    error thrown, or 'Failed to crawl pages' when what was thrown is not an
    Error.  When the body can be read, it is, for a non-2xx answer, the
    [error] of the body, or 'Failed to crawl pages' when the body has none
    or an empty one, and for a 2xx answer the non-empty [error] of the
    body. *)
Theorem handleCrawlSelected_failure_text (selectedUrls : list string)
    (s : State) (reply : Awaited CrawlResponse) :
  fetch_crawl (filterByUrls selectedUrls (discoveredPages s)) = reply ->
  let s' :=
    after (handleCrawlSelected formatBytes saveMarkdown fetch_crawl
             selectedUrls) s in
  let failed_with text :=
    toasts s' = toasts s ++ [mkToast "Error" text (Some destructive)] in
  match reply with
  | Rejected (ErrorObject _ message _) => failed_with message
  | Rejected NonError => failed_with "Failed to crawl pages"
  | Resolved response =>
      match crawl_json response with
      | Rejected (ErrorObject _ message _) => failed_with message
      | Rejected NonError => failed_with "Failed to crawl pages"
      | Resolved data =>
          (crawl_ok response = false ->
           failed_with (str_or (c_error data) "Failed to crawl pages")) /\
          (crawl_ok response = true ->
           forall c m, c_error data = Some (String c m) ->
                       failed_with (String c m))
      end
  end.
Proof.
  intros Hfetch. cbv zeta. rewrite handleCrawlSelected_run, Hfetch.
  destruct reply as [response|[name message stack|]]; try reflexivity.
  cbv [thrown_by_exchange].
  destruct (crawl_json response) as [data|[name message stack|]];
    try reflexivity.
  split.
  - intros ->. reflexivity.
  - intros -> c m ->. reflexivity.
Qed.

(** X14: what is rendered after the handler: the busy flag of the list is
    off and the busy flag of the processing block is the discovery flag;
    the markdown pane is shown after a saved crawl exactly when the
    returned markdown is not empty, and otherwise as before. *)
Theorem handleCrawlSelected_view (selectedUrls : list string) (s : State) :
  let reply := fetch_crawl (filterByUrls selectedUrls (discoveredPages s)) in
  let s' :=
    after (handleCrawlSelected formatBytes saveMarkdown fetch_crawl
             selectedUrls) s in
  list_busy s' = false /\
  processing_shown s' = isProcessing s /\
  markdown_visible s' =
    match thrown_by_exchange reply,
          saveMarkdown (st_url s) (returned_markdown reply) with
    | None, Resolved _ =>
        match returned_markdown reply with [] => false | _ :: _ => true end
    | _, _ => markdown_visible s
    end.
Proof.
  cbv zeta. rewrite handleCrawlSelected_run.
  cbv [list_busy processing_shown markdown_visible].
  destruct (thrown_by_exchange _) as [e|];
    [|destruct (saveMarkdown _ _)];
    cbv [failed_state saved_state unsaved_state];
    cbn [isCrawling isProcessing markdown];
    rewrite ?orb_false_r; repeat split.
Qed.

End CrawlMore.

(* ================================================================= *)
(** ** More about discovery from the page *)

Section DiscoveryMore.

Variable validateUrl : string -> bool.
Variable fetch_discover : string -> JsNumber -> Awaited DiscoverResponse.

Ltac run_submit :=
  cbv [after handleSubmit discover_body
       bind ret throw get modify await try_catch try_finally when
       setUrl setIsProcessing setDiscoveredPages setStats setMarkdown toast];
  cbn [discoveredPages st_url isProcessing isCrawling markdown stats toasts].

(** The notification of the [catch] block does not depend on the state. *)
Lemma discover_catch_uniform (err : Thrown) :
  exists t,
    variant t = Some destructive /\ title t = "Error" /\
    forall s,
      discover_catch err s =
      (Normal tt,
       mkState (st_url s) (isProcessing s) (discoveredPages s) (isCrawling s)
         (markdown s) (stats s) (toasts s ++ [t])).
Proof.
  unfold discover_catch.
  destruct err as [name message stack|];
    [destruct (negb (string_includes message "Failed to discover pages"))|];
    eexists; refine (conj _ (conj _ _));
    try (intros s; reflexivity); reflexivity.
Qed.

Ltac settle_cells :=
  cbn [discoveredPages st_url isProcessing isCrawling markdown stats toasts
       fst snd];
  rewrite <- ?app_assoc; try reflexivity.

(** The shape of every run on a valid url: the handler returns normally;
    the url cell is the submitted one, the markdown is cleared, the
    processing flag is off; the pages installed, the notifications added
    and the way the stats are rewritten depend on the answer only. *)
Lemma handleSubmit_valid_run (submittedUrl : string) (depth : JsNumber) :
  validateUrl submittedUrl = true ->
  exists pages' f emitted,
    emitted <> [] /\
    (forall st, f (f st) = f st) /\
    (forall st, pagesCrawled (f st) = pagesCrawled st /\
                dataExtracted (f st) = dataExtracted st) /\
    forall s,
      handleSubmit validateUrl fetch_discover submittedUrl depth s =
      (Normal tt,
       mkState submittedUrl false pages' (isCrawling s) [] (f (stats s))
         (toasts s ++ emitted)).
Proof.
  intros Hvalid.
  destruct (fetch_discover submittedUrl depth) as [response|e] eqn:Hf.
  - destruct (disc_json response) as [data|e] eqn:Hj.
    + destruct (disc_ok response) eqn:Hok.
      * set (pages := match d_pages data with Some l => l | None => [] end).
        exists pages,
          (fun prev => mkStats (List.length pages) (pagesCrawled prev)
                         (dataExtracted prev)
                         (List.length (error_pages pages))).
        destruct (0 <? List.length pages)%nat eqn:Hlen;
          [destruct (0 <? List.length (error_pages pages))%nat eqn:Herr|];
          eexists; (split; [|split; [reflexivity|split; [now split|]]]);
          try (intros s; run_submit; rewrite Hvalid; cbn [negb];
               rewrite Hf; cbn iota beta; rewrite Hj; cbn iota beta;
               rewrite Hok; cbn [negb]; cbn iota beta; fold pages;
               rewrite Hlen; rewrite ?Herr; cbn iota beta;
               settle_cells);
          discriminate.
      * destruct (discover_catch_uniform
                    (new_Error (str_or (d_error data)
                                  "Failed to discover pages")))
          as (t & _ & _ & Ht).
        exists [], (fun st => st). eexists.
        split; [|split; [reflexivity|split; [now split|]]].
        2:{ intros s. run_submit. rewrite Hvalid. cbn [negb].
            rewrite Hf. cbn iota beta. rewrite Hj. cbn iota beta.
            rewrite Hok. cbn [negb]. cbn iota beta.
            rewrite Ht. settle_cells. }
        discriminate.
    + destruct (discover_catch_uniform e) as (t & _ & _ & Ht).
      exists [], (fun st => st). eexists.
      split; [|split; [reflexivity|split; [now split|]]].
      2:{ intros s. run_submit. rewrite Hvalid. cbn [negb].
          rewrite Hf. cbn iota beta. rewrite Hj. cbn iota beta.
          rewrite Ht. settle_cells. }
      discriminate.
  - destruct (discover_catch_uniform e) as (t & _ & _ & Ht).
    exists [], (fun st => st). eexists.
    split; [|split; [reflexivity|split; [now split|]]].
    2:{ intros s. run_submit. rewrite Hvalid. cbn [negb].
        rewrite Hf. cbn iota beta. rewrite Ht. settle_cells. }
    discriminate.
Qed.

(** The state after a 2xx answer whose body could be read. *)
Lemma handleSubmit_success_state (submittedUrl : string) (depth : JsNumber)
    (s : State) (response : DiscoverResponse) (data : DiscoverData) :
  validateUrl submittedUrl = true ->
  fetch_discover submittedUrl depth = Resolved response ->
  disc_json response = Resolved data ->
  disc_ok response = true ->
  let pages := match d_pages data with Some l => l | None => [] end in
  after (handleSubmit validateUrl fetch_discover submittedUrl depth) s =
  mkState submittedUrl false pages (isCrawling s) []
    (mkStats (List.length pages) (pagesCrawled (stats s))
       (dataExtracted (stats s)) (List.length (error_pages pages)))
    (toasts s ++
     if (0 <? List.length pages)%nat then
       (if (0 <? List.length (error_pages pages))%nat then
          [mkToast "Warning"
             (string_of_nat (List.length (error_pages pages))
              ++ " pages encountered errors during discovery")
             (Some variant_default)]
        else []) ++
       [mkToast "Pages Discovered"
          ("Found " ++ string_of_nat (List.length pages)
           ++ " related pages at depth " ++ string_of_number depth)
          None]
     else
       [mkToast "No Pages Found"
          "The crawler couldn't find any pages to process. This might be due to access restrictions or an invalid URL structure."
          (Some variant_default)]).
Proof.
  intros Hvalid Hf Hj Hok pages. run_submit. rewrite Hvalid. cbn [negb].
  rewrite Hf. cbn iota beta. rewrite Hj. cbn iota beta.
  rewrite Hok. cbn [negb]. cbn iota beta. fold pages.
  destruct (0 <? List.length pages)%nat;
    [destruct (0 <? List.length (error_pages pages))%nat|];
    cbn iota beta; settle_cells.
Qed.

(** The state after a non-2xx answer whose body could be read. *)
Lemma handleSubmit_backend_error_state (submittedUrl : string) (depth : JsNumber)
    (s : State) (response : DiscoverResponse) (data : DiscoverData) :
  validateUrl submittedUrl = true ->
  fetch_discover submittedUrl depth = Resolved response ->
  disc_json response = Resolved data ->
  disc_ok response = false ->
  let errorMessage := str_or (d_error data) "Failed to discover pages" in
  let fallback :=
    "Failed to discover pages. Check the console for more details." in
  after (handleSubmit validateUrl fetch_discover submittedUrl depth) s =
  mkState submittedUrl false [] (isCrawling s) [] (stats s)
    (toasts s ++
     [mkToast ("Error: " ++ str_or (d_errorType data) "Unknown")
        errorMessage (Some destructive);
      mkToast "Error"
        (if string_includes errorMessage "Failed to discover pages"
         then fallback else str_or (Some errorMessage) fallback)
        (Some destructive)]).
Proof.
  intros Hvalid Hf Hj Hok errorMessage fallback. run_submit.
  rewrite Hvalid. cbn [negb].
  rewrite Hf. cbn iota beta. rewrite Hj. cbn iota beta.
  rewrite Hok. cbn [negb]. cbn iota beta.
  unfold discover_catch, new_Error. fold errorMessage.
  destruct (string_includes errorMessage "Failed to discover pages");
    cbn [negb]; cbv [toast modify]; settle_cells.
Qed.

(** X15: a url that [validateUrl] refuses changes no cell of the state:
    the handler returns at once with one destructive 'Invalid URL'
    notification, whatever the discover endpoint would answer. *)
Theorem handleSubmit_invalid_url (submittedUrl : string) (depth : JsNumber)
    (s : State) :
  validateUrl submittedUrl = false ->
  let run := handleSubmit validateUrl fetch_discover submittedUrl depth s in
  fst run = Normal tt /\
  same_cells (snd run) s /\
  exists t,
    toasts (snd run) = toasts s ++ [t] /\
    title t = "Invalid URL" /\ variant t = Some destructive.
Proof.
  intros Hvalid. cbv zeta. unfold handleSubmit. rewrite Hvalid. cbn [negb].
  cbv [toast modify same_cells]. cbn. repeat split.
  eexists. repeat split.
Qed.

(** X16: a successful discovery replaces the collection by the pages of
    the answer (the empty collection when the answer has no [pages] key),
    sets the discovered count to their number and overwrites the error
    counter with the number of pages whose status is 'error', whatever it
    counted before; the crawled count and the extracted size stay. *)
Theorem handleSubmit_installs_pages (submittedUrl : string) (depth : JsNumber)
    (s : State) (response : DiscoverResponse) (data : DiscoverData) :
  validateUrl submittedUrl = true ->
  fetch_discover submittedUrl depth = Resolved response ->
  disc_json response = Resolved data ->
  disc_ok response = true ->
  let s' :=
    after (handleSubmit validateUrl fetch_discover submittedUrl depth) s in
  (forall pages, d_pages data = Some pages -> discoveredPages s' = pages) /\
  (d_pages data = None -> discoveredPages s' = []) /\
  subdomainsParsed (stats s') = List.length (discoveredPages s') /\
  errorsEncountered (stats s')
    = List.length (filter (fun p => Status_eqb (status p) error)
                     (discoveredPages s')) /\
  (errorsEncountered (stats s') <= subdomainsParsed (stats s'))%nat /\
  pagesCrawled (stats s') = pagesCrawled (stats s) /\
  dataExtracted (stats s') = dataExtracted (stats s).
Proof.
  intros Hvalid Hf Hj Hok. cbv zeta.
  rewrite (handleSubmit_success_state _ _ _ _ _ Hvalid Hf Hj Hok).
  cbn [discoveredPages stats subdomainsParsed errorsEncountered pagesCrawled
       dataExtracted].
  repeat split.
  - now intros pages ->.
  - now intros ->.
  - unfold error_pages. apply filter_length_le.
Qed.

(** X17: the notifications of a successful discovery, by title: 'No Pages
    Found' alone when no page came back; otherwise 'Pages Discovered',
    preceded by 'Warning' exactly when some page has status 'error'.  None
    of them is destructive. *)
Theorem handleSubmit_success_notifications (submittedUrl : string)
    (depth : JsNumber) (s : State) (response : DiscoverResponse)
    (data : DiscoverData) :
  validateUrl submittedUrl = true ->
  fetch_discover submittedUrl depth = Resolved response ->
  disc_json response = Resolved data ->
  disc_ok response = true ->
  let s' :=
    after (handleSubmit validateUrl fetch_discover submittedUrl depth) s in
  exists emitted,
    toasts s' = toasts s ++ emitted /\
    Forall (fun t => variant t <> Some destructive) emitted /\
    map title emitted =
      match discoveredPages s' with
      | [] => ["No Pages Found"]
      | _ :: _ =>
          (if existsb (fun p => Status_eqb (status p) error)
                (discoveredPages s')
           then ["Warning"] else []) ++ ["Pages Discovered"]
      end.
Proof.
  intros Hvalid Hf Hj Hok. cbv zeta.
  rewrite (handleSubmit_success_state _ _ _ _ _ Hvalid Hf Hj Hok).
  cbn [discoveredPages toasts].
  set (pages := match d_pages data with Some l => l | None => [] end).
  assert (Hex : existsb (fun p => Status_eqb (status p) error) pages
                = (0 <? List.length (error_pages pages))%nat).
  { unfold error_pages. induction pages as [|p rest IH]; [reflexivity|].
    cbn [existsb filter]. destruct (Status_eqb (status p) error);
      [reflexivity | exact IH]. }
  eexists. split; [reflexivity|]. rewrite Hex.
  destruct pages as [|p rest].
  - cbn [List.length Nat.ltb Nat.leb].
    split; [cbn [app]; repeat constructor; cbn; discriminate | reflexivity].
  - change (0 <? List.length (p :: rest))%nat with true. cbv iota.
    destruct (0 <? List.length (error_pages (p :: rest)))%nat;
      (split; [cbn [app]; repeat constructor; cbn; discriminate | reflexivity]).
Qed.

(** The state after an answer whose body could not be read. *)
Lemma handleSubmit_unreadable_state (submittedUrl : string)
    (depth : JsNumber) (s : State) (response : DiscoverResponse)
    (e : Thrown) :
  validateUrl submittedUrl = true ->
  fetch_discover submittedUrl depth = Resolved response ->
  disc_json response = Rejected e ->
  let fallback :=
    "Failed to discover pages. Check the console for more details." in
  after (handleSubmit validateUrl fetch_discover submittedUrl depth) s =
  mkState submittedUrl false [] (isCrawling s) [] (stats s)
    (toasts s ++
     [mkToast "Error"
        match e with
        | ErrorObject _ message _ =>
            if string_includes message "Failed to discover pages"
            then fallback else str_or (Some message) fallback
        | NonError => fallback
        end
        (Some destructive)]).
Proof.
  intros Hvalid Hf Hj fallback. run_submit.
  rewrite Hvalid. cbn [negb].
  rewrite Hf. cbn iota beta. rewrite Hj. cbn iota beta.
  unfold discover_catch.
  destruct e as [name message stack|];
    [destruct (string_includes message "Failed to discover pages")|];
    cbn [negb]; cbv [toast modify]; settle_cells.
Qed.

(** X18: the notifications of a non-2xx answer.  When its body can be
    read there are two, both destructive: the first is titled 'Error: '
    followed by the [errorType] of the body (or 'Unknown') and shows its
    [error] (or 'Failed to discover pages'); the second, from the [catch]
    block, shows the same text again, or the generic text when that text
    contains 'Failed to discover pages'.  When its body cannot be read
    there is one only, from the [catch] block: it shows the message of the
    parser's error, or the generic text when that message is empty or
    contains 'Failed to discover pages' or when what was thrown is not an
    Error. *)
Theorem handleSubmit_backend_error_notifies_twice (submittedUrl : string)
    (depth : JsNumber) (s : State) (response : DiscoverResponse) :
  validateUrl submittedUrl = true ->
  fetch_discover submittedUrl depth = Resolved response ->
  disc_ok response = false ->
  let s' :=
    after (handleSubmit validateUrl fetch_discover submittedUrl depth) s in
  let generic :=
    "Failed to discover pages. Check the console for more details." in
  match disc_json response with
  | Resolved data =>
      let text := str_or (d_error data) "Failed to discover pages" in
      exists t1 t2,
        toasts s' = toasts s ++ [t1; t2] /\
        variant t1 = Some destructive /\ variant t2 = Some destructive /\
        title t1 = ("Error: " ++ str_or (d_errorType data) "Unknown")%string /\
        description t1 = text /\
        title t2 = "Error" /\
        (string_includes text "Failed to discover pages" = false ->
         description t2 = text) /\
        (string_includes text "Failed to discover pages" = true ->
         description t2 = generic)
  | Rejected e =>
      exists t,
        toasts s' = toasts s ++ [t] /\
        variant t = Some destructive /\
        title t = "Error" /\
        match e with
        | ErrorObject _ message _ =>
            (message <> "" ->
             string_includes message "Failed to discover pages" = false ->
             description t = message) /\
            (message = "" \/
             string_includes message "Failed to discover pages" = true ->
             description t = generic)
        | NonError => description t = generic
        end
  end.
Proof.
  intros Hvalid Hf Hok. cbv zeta.
  destruct (disc_json response) as [data|e] eqn:Hj.
  - rewrite (handleSubmit_backend_error_state _ _ _ _ _ Hvalid Hf Hj Hok).
    cbn [toasts]. do 2 eexists. split; [reflexivity|].
    cbn [variant title description]. repeat split.
    + intros ->. destruct (d_error data) as [[|c m]|]; reflexivity.
    + now intros ->.
  - rewrite (handleSubmit_unreadable_state _ _ _ _ _ Hvalid Hf Hj).
    cbn [toasts]. eexists. split; [reflexivity|].
    cbn [variant title description]. repeat split.
    destruct e as [name message stack|]; [|reflexivity]. split.
    + intros Hne ->. destruct message; [congruence | reflexivity].
    + intros [-> | ->]; reflexivity.
Qed.

(** X19: the handler lets no exception escape, keeps the notifications
    already emitted and adds at least one, and leaves the crawling flag,
    the crawled count and the extracted size alone.  On a valid url it
    also ends with the processing flag off, the url cell set and the
    markdown cleared, so the markdown pane is hidden and the processing
    block is busy only if a crawl is. *)
Theorem handleSubmit_always_settles (submittedUrl : string) (depth : JsNumber)
    (s : State) :
  let run := handleSubmit validateUrl fetch_discover submittedUrl depth s in
  fst run = Normal tt /\
  (exists emitted, toasts (snd run) = toasts s ++ emitted /\ emitted <> []) /\
  isCrawling (snd run) = isCrawling s /\
  pagesCrawled (stats (snd run)) = pagesCrawled (stats s) /\
  dataExtracted (stats (snd run)) = dataExtracted (stats s) /\
  (validateUrl submittedUrl = true ->
   isProcessing (snd run) = false /\
   st_url (snd run) = submittedUrl /\
   markdown (snd run) = [] /\
   markdown_visible (snd run) = false /\
   processing_shown (snd run) = isCrawling s).
Proof.
  cbv zeta. destruct (validateUrl submittedUrl) eqn:Hvalid.
  - destruct (handleSubmit_valid_run submittedUrl depth Hvalid)
      as (pages' & f & emitted & Hne & _ & Hf & Hrun).
    rewrite Hrun. cbn [fst snd toasts isCrawling stats isProcessing st_url
                       markdown].
    destruct (Hf (stats s)) as [Hc Hd].
    repeat split; eauto.
  - unfold handleSubmit. rewrite Hvalid. cbn [negb]. cbv [toast modify].
    cbn. repeat split; try discriminate.
    eexists. split; [reflexivity | discriminate].
Qed.

(** X20: submitting the same url and depth again, with the endpoint
    answering as before, leaves every cell of the state as the first
    submission left it: a discovery replaces, it does not merge. *)
Theorem handleSubmit_idempotent (submittedUrl : string) (depth : JsNumber)
    (s : State) :
  let h := handleSubmit validateUrl fetch_discover submittedUrl depth in
  same_cells (after h (after h s)) (after h s).
Proof.
  cbv zeta. unfold after, same_cells.
  destruct (validateUrl submittedUrl) eqn:Hvalid.
  - destruct (handleSubmit_valid_run submittedUrl depth Hvalid)
      as (pages' & f & emitted & _ & Hidem & _ & Hrun).
    rewrite !Hrun.
    cbn [snd st_url isProcessing discoveredPages isCrawling markdown stats].
    now rewrite Hidem.
  - unfold handleSubmit. rewrite Hvalid. cbn [negb]. cbv [toast modify].
    cbn. repeat split.
Qed.

End DiscoveryMore.

(* ================================================================= *)
(** ** The page in front of the route *)

Section EndToEndFacts.

Variable engine : Engine.
Variable validateUrl : string -> bool.
Variable backend : BackendRequest -> Awaited BackendResponse.

Lemma truthy_lit (u : string) : u <> "" -> truthy (JsStr (lit u)) = true.
Proof. destruct u; [congruence | reflexivity]. Qed.

(** The depth the page sends always validates: it arrives as a number or
    as [null], and [String] throws on neither. *)
Lemma page_depth_validates (depth : JsNumber) :
  exists validated,
    validatedDepth (default_depth (as_json (JsNum depth))) = Some validated.
Proof.
  destruct depth as [negative [| | | | | | | | | |] n|negative|];
    eexists; reflexivity.
Qed.

(** What the route answers to the body the page sends. *)
Lemma route_answer_to_page (submittedUrl : string) (depth : JsNumber)
    (validated : Z) :
  submittedUrl <> "" ->
  validatedDepth (default_depth (as_json (JsNum depth))) = Some validated ->
  snd (POST engine
         (Resolved (mkRequestBody (JsStr (lit submittedUrl))
                      (as_json (JsNum depth)))) backend) =
  match backend (mkBackendRequest (JsStr (lit submittedUrl)) validated) with
  | Rejected e => failure e
  | Resolved response =>
      match resp_json response with
      | Rejected e => failure e
      | Resolved data =>
          match
            (if resp_ok response then
               json engine
                 (mkBody None None None
                    (Some (match data_pages data with
                           | Some pages => pages
                           | None => []
                           end))
                    (Some (success_message data))) None
             else
               json engine
                 (mkBody (Some (str_or (data_error data)
                                  "Failed to discover pages"))
                    None None None None)
                 (Some (resp_status response)))
          with
          | inr answer => answer
          | inl e => failure e
          end
      end
  end.
Proof.
  intros Hu Hdepth. unfold POST, POST_try. cbn [body_url body_depth].
  rewrite (truthy_lit _ Hu), Hdepth. cbn [negb].
  change (as_json (JsStr (lit submittedUrl))) with (JsStr (lit submittedUrl)).
  destruct (backend _) as [response|e]; [|reflexivity].
  destruct (resp_ok response); cbn [negb];
    destruct (resp_json response); try reflexivity;
    destruct (json _ _ _); reflexivity.
Qed.

(** The page after an answer of the route that is not a 2xx one: the
    first notification shows the [errorType] and the [error] of the
    answer, the second comes from the [catch] block. *)
Lemma page_after_route_error (submittedUrl : string) (depth : JsNumber)
    (s : State) (answer : NextResponse) :
  validateUrl submittedUrl = true ->
  snd (POST engine
         (Resolved (mkRequestBody (JsStr (lit submittedUrl))
                      (as_json (JsNum depth)))) backend) = answer ->
  disc_ok (response_of answer) = false ->
  let s' :=
    after (handleSubmit validateUrl (discover_through_route engine backend)
             submittedUrl depth) s in
  discoveredPages s' = [] /\
  stats s' = stats s /\
  exists t1 t2,
    toasts s' = toasts s ++ [t1; t2] /\
    variant t1 = Some destructive /\ variant t2 = Some destructive /\
    title t1 =
      ("Error: " ++ str_or (body_errorType (res_body answer)) "Unknown")%string
    /\
    description t1
      = str_or (body_error (res_body answer)) "Failed to discover pages".
Proof.
  intros Hvalid Hans Hok. cbv zeta.
  rewrite (handleSubmit_backend_error_state validateUrl
             (discover_through_route engine backend) submittedUrl depth s
             (response_of answer)
             (mkDiscoverData (body_error (res_body answer))
                (body_details (res_body answer))
                (body_errorType (res_body answer))
                (body_pages (res_body answer)))
             Hvalid).
  - cbn [discoveredPages stats toasts d_error d_errorType].
    repeat split. do 2 eexists. repeat split.
  - unfold discover_through_route. now rewrite Hans.
  - reflexivity.
  - exact Hok.
Qed.

(** X21: when the route cannot reach the backend, the page ends with an
    empty collection and two destructive notifications; the first is titled
    with the name of the error the route caught and shows its message. *)
Theorem page_reports_unreachable_backend (submittedUrl : string)
    (depth : JsNumber) (validated : Z) (s : State) (name message : string)
    (stack : option string) :
  validateUrl submittedUrl = true ->
  submittedUrl <> "" ->
  validatedDepth (default_depth (as_json (JsNum depth))) = Some validated ->
  backend (mkBackendRequest (JsStr (lit submittedUrl)) validated)
    = Rejected (ErrorObject name message stack) ->
  let s' :=
    after (handleSubmit validateUrl (discover_through_route engine backend)
             submittedUrl depth) s in
  discoveredPages s' = [] /\
  stats s' = stats s /\
  exists t1 t2,
    toasts s' = toasts s ++ [t1; t2] /\
    variant t1 = Some destructive /\ variant t2 = Some destructive /\
    title t1 = ("Error: " ++ str_or (Some name) "Unknown")%string /\
    description t1 = str_or (Some message) "Failed to discover pages".
Proof.
  intros Hvalid Hu Hdepth Hback.
  apply (page_after_route_error submittedUrl depth s
           (failure (ErrorObject name message stack)) Hvalid);
    [|reflexivity].
  now rewrite (route_answer_to_page _ _ _ Hu Hdepth), Hback.
Qed.

(** X22: when the backend answers the route with a non-2xx status, the
    page ends with an empty collection and two destructive notifications.
    For a status from 300 to 599 other than 304 and a readable body, the
    route passes on the [error] only, so the first notification is titled
    'Error: Unknown'; it shows the backend's error, or 'Failed to discover
    pages' when there is none.  For a status the route cannot answer with,
    the first notification is titled 'Error: TypeError' (304) or 'Error:
    RangeError' (below 200 or above 599) and shows the message of that
    error.  For a body the route cannot read, it is titled with the name
    of the parser's error and shows its message. *)
Theorem page_reports_backend_error (submittedUrl : string) (depth : JsNumber)
    (validated : Z) (s : State) (response : BackendResponse) :
  validateUrl submittedUrl = true ->
  submittedUrl <> "" ->
  validatedDepth (default_depth (as_json (JsNum depth))) = Some validated ->
  backend (mkBackendRequest (JsStr (lit submittedUrl)) validated)
    = Resolved response ->
  resp_ok response = false ->
  let s' :=
    after (handleSubmit validateUrl (discover_through_route engine backend)
             submittedUrl depth) s in
  let st := resp_status response in
  discoveredPages s' = [] /\
  stats s' = stats s /\
  exists t1 t2,
    toasts s' = toasts s ++ [t1; t2] /\
    variant t1 = Some destructive /\ variant t2 = Some destructive /\
    match resp_json response with
    | Resolved errorData =>
        ((300 <= st <= 599)%Z /\ st <> 304%Z ->
         title t1 = "Error: Unknown" /\
         description t1
           = str_or (data_error errorData) "Failed to discover pages") /\
        (st = 304%Z ->
         title t1 = "Error: TypeError" /\
         description t1
           = str_or (Some (raised_message (null_body_status engine st)))
               "Failed to discover pages") /\
        ((st < 200)%Z \/ (599 < st)%Z ->
         title t1 = "Error: RangeError" /\
         description t1
           = str_or (Some (raised_message (status_out_of_range engine st)))
               "Failed to discover pages")
    | Rejected (ErrorObject name message _) =>
        title t1 = ("Error: " ++ str_or (Some name) "Unknown")%string /\
        description t1 = str_or (Some message) "Failed to discover pages"
    | Rejected NonError =>
        title t1 = "Error: Unknown" /\
        description t1 = "Failed to discover pages"
    end.
Proof.
  intros Hvalid Hu Hdepth Hback Hok. cbv zeta.
  pose proof (route_answer_to_page _ _ _ Hu Hdepth) as Hans.
  rewrite Hback, Hok in Hans. unfold resp_ok in Hok.
  destruct (resp_json response) as [errorData|e].
  - unfold json, status_in_range, status_forbids_body in Hans.
    assert (Hcases : ((300 <= resp_status response <= 599)%Z /\
                      resp_status response <> 304%Z) \/
                     resp_status response = 304%Z \/
                     ((resp_status response < 200)%Z \/
                      (599 < resp_status response)%Z)) by lia.
    destruct Hcases as [Hmirror | [Hnull | Hout]].
    + replace ((200 <=? resp_status response)
               && (resp_status response <=? 599))%Z with true in Hans by lia.
      replace ((resp_status response =? 101)
               || (resp_status response =? 103)
               || (resp_status response =? 204)
               || (resp_status response =? 205)
               || (resp_status response =? 304))%Z with false in Hans by lia.
      cbn [negb] in Hans.
      destruct (page_after_route_error submittedUrl depth s _ Hvalid Hans)
        as (Hpages & Hstats & t1 & t2 & Htoasts & Hv1 & Hv2 & Ht1 & Hd1);
        [exact Hok|].
      refine (conj Hpages (conj Hstats _)). exists t1, t2.
      refine (conj Htoasts (conj Hv1 (conj Hv2 (conj _ (conj _ _)))));
        [|lia|lia].
      intros _. split; [exact Ht1|]. rewrite Hd1.
      cbn [res_body body_error].
      destruct (data_error errorData) as [[|c m]|]; reflexivity.
    + rewrite Hnull in Hans. cbn in Hans.
      destruct (page_after_route_error submittedUrl depth s _ Hvalid Hans)
        as (Hpages & Hstats & t1 & t2 & Htoasts & Hv1 & Hv2 & Ht1 & Hd1);
        [reflexivity|].
      refine (conj Hpages (conj Hstats _)). exists t1, t2.
      refine (conj Htoasts (conj Hv1 (conj Hv2 (conj _ (conj _ _)))));
        [lia| |lia].
      intros _. rewrite Hnull. split; [exact Ht1 | exact Hd1].
    + replace ((200 <=? resp_status response)
               && (resp_status response <=? 599))%Z with false in Hans by lia.
      cbn [negb] in Hans.
      destruct (page_after_route_error submittedUrl depth s _ Hvalid Hans)
        as (Hpages & Hstats & t1 & t2 & Htoasts & Hv1 & Hv2 & Ht1 & Hd1);
        [reflexivity|].
      refine (conj Hpages (conj Hstats _)). exists t1, t2.
      refine (conj Htoasts (conj Hv1 (conj Hv2 (conj _ (conj _ _)))));
        [lia|lia|].
      intros _. split; [exact Ht1 | exact Hd1].
  - destruct (page_after_route_error submittedUrl depth s _ Hvalid Hans)
      as (Hpages & Hstats & t1 & t2 & Htoasts & Hv1 & Hv2 & Ht1 & Hd1);
      [reflexivity|].
    refine (conj Hpages (conj Hstats _)). exists t1, t2.
    refine (conj Htoasts (conj Hv1 (conj Hv2 _))).
    destruct e as [name message stack|]; split; assumption.
Qed.

(** X23: when the backend answers the route with a 2xx status, the pages
    it found are the collection of the page afterwards, in the same order
    (the empty collection when the answer has no [pages] key), and the
    discovered count is their number. *)
Theorem page_installs_backend_pages (submittedUrl : string) (depth : JsNumber)
    (validated : Z) (s : State) (response : BackendResponse)
    (data : BackendData) :
  validateUrl submittedUrl = true ->
  submittedUrl <> "" ->
  validatedDepth (default_depth (as_json (JsNum depth))) = Some validated ->
  backend (mkBackendRequest (JsStr (lit submittedUrl)) validated)
    = Resolved response ->
  resp_ok response = true ->
  resp_json response = Resolved data ->
  let s' :=
    after (handleSubmit validateUrl (discover_through_route engine backend)
             submittedUrl depth) s in
  discoveredPages s'
    = match data_pages data with Some pages => pages | None => [] end /\
  subdomainsParsed (stats s') = List.length (discoveredPages s') /\
  Forall (fun t => variant t <> Some destructive)
    (skipn (List.length (toasts s)) (toasts s')).
Proof.
  intros Hvalid Hu Hdepth Hback Hok Hjson. cbv zeta.
  set (pages := match data_pages data with Some l => l | None => [] end).
  rewrite (handleSubmit_success_state validateUrl
             (discover_through_route engine backend) submittedUrl depth s
             (response_of
                (mkNextResponse 200
                   (mkBody None None None (Some pages)
                      (Some (success_message data)))))
             (mkDiscoverData None None None (Some pages))
             Hvalid).
  - cbn [discoveredPages stats toasts subdomainsParsed d_pages].
    repeat split.
    rewrite skipn_app, Nat.sub_diag, skipn_all. cbn [Datatypes.app skipn].
    destruct (0 <? List.length pages)%nat;
      [destruct (0 <? List.length (error_pages pages))%nat|];
      cbn [Datatypes.app]; repeat constructor; cbn; discriminate.
  - unfold discover_through_route.
    now rewrite (route_answer_to_page _ _ _ Hu Hdepth), Hback, Hjson, Hok.
  - reflexivity.
  - reflexivity.
Qed.

End EndToEndFacts.

(* ================================================================= *)
(** ** The further properties on the example answers *)

(** X3 for a backend that cannot be reached. *)
Lemma route_rejection_becomes_500_witness :
  let answer :=
    snd (POST node (Resolved (docs_body (JsInt 2))) backend_unreachable) in
  res_status answer = 500%Z /\
  body_pages (res_body answer) = Some [] /\
  body_error (res_body answer) = Some "fetch failed" /\
  body_errorType (res_body answer) = Some "TypeError".
Proof.
  destruct (route_rejection_becomes_500 node backend_unreachable
              (Resolved (docs_body (JsInt 2)))
              (ErrorObject "TypeError" "fetch failed" None))
    as (Hstatus & Hpages & Herror & Htype & _).
  - right. exists (docs_body (JsInt 2)), 2%Z.
    split; [reflexivity|]. split; [reflexivity|].
    split; [reflexivity|]. left. reflexivity.
  - repeat split; assumption.
Defined.

(** X4 for a backend that answers 503 without an [error], for one that
    answers with status 600, and for one whose body is not JSON. *)
Lemma route_mirrors_backend_error_witness :
  let answer backend := snd (POST node (Resolved (docs_body (JsInt 2)))
                               backend) in
  (res_status (answer backend_unavailable) = 503%Z /\
   body_error (res_body (answer backend_unavailable))
     = Some "Failed to discover pages" /\
   body_pages (res_body (answer backend_unavailable)) = None) /\
  answer backend_status_600
    = failure (RangeError (status_out_of_range node 600)) /\
  answer backend_unreadable
    = failure (ErrorObject "SyntaxError" "Unexpected token <" None).
Proof.
  destruct (route_mirrors_backend_error node backend_unavailable
              (docs_body (JsInt 2)) 2%Z
              (mkBackendResponse 503
                 (Resolved (mkBackendData None None None)))
              eq_refl eq_refl eq_refl eq_refl)
    as ((Hmirror & _ & _) & _).
  destruct Hmirror as (Hstatus & Herror & _ & Hpages & _);
    [split; [split|]; discriminate|].
  destruct (route_mirrors_backend_error node backend_status_600
              (docs_body (JsInt 2)) 2%Z
              (mkBackendResponse 600
                 (Resolved (mkBackendData (Some "overloaded") None None)))
              eq_refl eq_refl eq_refl eq_refl)
    as ((_ & _ & Hout) & _).
  destruct (route_mirrors_backend_error node backend_unreadable
              (docs_body (JsInt 2)) 2%Z
              (mkBackendResponse 502
                 (Rejected (ErrorObject "SyntaxError" "Unexpected token <"
                              None)))
              eq_refl eq_refl eq_refl eq_refl)
    as (Hunreadable & _).
  split; [repeat split; assumption|].
  split; [apply Hout; right; reflexivity | exact Hunreadable].
Defined.

(** X5 for a backend that finds three pages, and for one that answers
    without a [pages] key. *)
Lemma route_passes_pages_through_witness :
  let found :=
    snd (POST node (Resolved (docs_body (JsInt 2))) backend_finds_three) in
  let keyless :=
    snd (POST node (Resolved (docs_body (JsInt 2))) backend_without_pages) in
  body_pages (res_body found) = Some [page_a; page_e; page_c] /\
  body_message (res_body found) = Some "Found 3 pages" /\
  body_pages (res_body keyless) = Some [] /\
  body_message (res_body keyless) = Some "Found undefined pages".
Proof.
  destruct (route_passes_pages_through node backend_finds_three
              (docs_body (JsInt 2)) 2%Z
              (mkBackendResponse 200
                 (Resolved (mkBackendData None
                              (Some [page_a; page_e; page_c]) None)))
              (mkBackendData None (Some [page_a; page_e; page_c]) None)
              eq_refl eq_refl eq_refl eq_refl eq_refl)
    as (_ & Hpages & _ & _ & Hmsg).
  destruct (route_passes_pages_through node backend_without_pages
              (docs_body (JsInt 2)) 2%Z
              (mkBackendResponse 200
                 (Resolved (mkBackendData None None None)))
              (mkBackendData None None None)
              eq_refl eq_refl eq_refl eq_refl eq_refl)
    as (_ & _ & Hnone & _ & Hmsg').
  split; [exact (Hpages _ eq_refl)|].
  split; [exact (Hmsg (or_introl eq_refl))|].
  split; [exact (Hnone eq_refl) | exact (Hmsg' (or_introl eq_refl))].
Defined.

(** X6 for the depth '9', which validates to 5, and for the depth 4. *)
Lemma validatedDepth_idempotent_fixpoints_witness :
  validatedDepth (JsInt 5) = validatedDepth (JsStr (lit "9")) /\
  validatedDepth (JsInt 4) = Some 4%Z.
Proof.
  destruct validatedDepth_idempotent_fixpoints as [Hidem Hfix].
  split; [exact (Hidem (JsStr (lit "9")) 5%Z eq_refl) | apply Hfix; lia].
Defined.

(** X12 for the selection [a] and an answer without a [markdown] key. *)
Lemma handleCrawlSelected_saved_witness :
  let s' :=
    after (handleCrawlSelected bytes_label save_ok crawl_empty_object
             [url_a]) discovered in
  map status (discoveredPages s') = [crawled; not_started] /\
  selection_marked [url_a] crawled (discoveredPages s') /\
  markdown s' = [] /\
  dataExtracted (stats s') = bytes_label 0 /\
  markdown_visible s' = false /\
  map title (toasts s') = ["Content Saved"; "Crawling Complete"].
Proof.
  destruct (handleCrawlSelected_saved bytes_label save_ok crawl_empty_object
              [url_a] discovered
              (mkCrawlResponse true (Resolved (mkCrawlData None None)))
              (mkCrawlData None None)
              eq_refl eq_refl eq_refl eq_refl eq_refl)
    as (Hmarked & _ & Hnone & _).
  destruct (Hnone eq_refl) as (Hmd & Hdata & Hvis).
  split; [reflexivity|]. split; [exact Hmarked|].
  split; [exact Hmd|]. split; [exact Hdata|].
  split; [exact Hvis | reflexivity].
Defined.

(** X13 for a crawl endpoint that cannot be reached, and for one whose
    answer is not JSON. *)
Lemma handleCrawlSelected_failure_text_witness :
  toasts (after (handleCrawlSelected bytes_label save_ok crawl_unreachable
                   [url_a]) discovered)
  = [mkToast "Error" "fetch failed" (Some destructive)] /\
  toasts (after (handleCrawlSelected bytes_label save_ok crawl_unreadable
                   [url_a]) discovered)
  = [mkToast "Error" "Unexpected token <" (Some destructive)].
Proof.
  split.
  - exact (handleCrawlSelected_failure_text bytes_label save_ok
             crawl_unreachable [url_a] discovered
             (Rejected (ErrorObject "TypeError" "fetch failed" None))
             eq_refl).
  - exact (handleCrawlSelected_failure_text bytes_label save_ok
             crawl_unreadable [url_a] discovered
             (crawl_unreadable []) eq_refl).
Defined.

(** X15 for a validator that refuses everything. *)
Lemma handleSubmit_invalid_url_witness :
  let run :=
    handleSubmit never_valid discover_three "not a url" (of_Z 3) discovered in
  never_valid "not a url" = false /\
  same_cells (snd run) discovered /\
  map title (toasts (snd run)) = ["Invalid URL"].
Proof.
  destruct (handleSubmit_invalid_url never_valid discover_three "not a url"
              (of_Z 3) discovered eq_refl)
    as (_ & Hcells & _).
  split; [reflexivity|]. split; [exact Hcells | reflexivity].
Defined.

(** X16 for an answer with three pages, one of them failed. *)
Lemma handleSubmit_installs_pages_witness :
  let s' :=
    after (handleSubmit always_valid discover_three
             "https://docs.example.com" (of_Z 2)) discovered in
  discoveredPages s' = [page_a; page_e; page_c] /\
  subdomainsParsed (stats s') = 3 /\
  errorsEncountered (stats s') = 1.
Proof.
  destruct (handleSubmit_installs_pages always_valid discover_three
              "https://docs.example.com" (of_Z 2) discovered
              (mkDiscoverResponse true
                 (Resolved (mkDiscoverData None None None
                              (Some [page_a; page_e; page_c]))))
              (mkDiscoverData None None None (Some [page_a; page_e; page_c]))
              eq_refl eq_refl eq_refl eq_refl)
    as (Hpages & _ & Hcount & Herr & _).
  split; [exact (Hpages _ eq_refl)|]. split; [exact Hcount | exact Herr].
Defined.

(** X17 for the same answer. *)
Lemma handleSubmit_success_notifications_witness :
  exists emitted,
    toasts (after (handleSubmit always_valid discover_three
                     "https://docs.example.com" (of_Z 2)) discovered)
    = toasts discovered ++ emitted /\
    map title emitted = ["Warning"; "Pages Discovered"].
Proof.
  destruct (handleSubmit_success_notifications always_valid discover_three
              "https://docs.example.com" (of_Z 2) discovered
              (mkDiscoverResponse true
                 (Resolved (mkDiscoverData None None None
                              (Some [page_a; page_e; page_c]))))
              (mkDiscoverData None None None (Some [page_a; page_e; page_c]))
              eq_refl eq_refl eq_refl eq_refl)
    as (emitted & Htoasts & _ & Htitles).
  exists emitted. split; [exact Htoasts | exact Htitles].
Defined.

(** X18 for a non-2xx answer with an error and an error type, and for
    one whose body is not JSON. *)
Lemma handleSubmit_backend_error_notifies_twice_witness :
  (exists t1 t2,
     toasts (after (handleSubmit always_valid discover_bad_gateway
                      "https://docs.example.com" (of_Z 2)) discovered)
     = [t1; t2] /\
     title t1 = "Error: BadGateway" /\ description t1 = "backend down" /\
     title t2 = "Error" /\ description t2 = "backend down") /\
  (exists t,
     toasts (after (handleSubmit always_valid discover_unreadable
                      "https://docs.example.com" (of_Z 2)) discovered)
     = [t] /\
     title t = "Error" /\ description t = "Unexpected token <").
Proof.
  split.
  - destruct (handleSubmit_backend_error_notifies_twice always_valid
                discover_bad_gateway "https://docs.example.com" (of_Z 2)
                discovered
                (mkDiscoverResponse false
                   (Resolved (mkDiscoverData (Some "backend down") None
                                (Some "BadGateway") None)))
                eq_refl eq_refl eq_refl)
      as (t1 & t2 & Htoasts & _ & _ & Ht1 & Hd1 & Ht2 & Hd2 & _).
    exists t1, t2.
    split; [exact Htoasts|]. split; [exact Ht1|]. split; [exact Hd1|].
    split; [exact Ht2 | exact (Hd2 eq_refl)].
  - destruct (handleSubmit_backend_error_notifies_twice always_valid
                discover_unreadable "https://docs.example.com" (of_Z 2)
                discovered
                (mkDiscoverResponse false
                   (Rejected (ErrorObject "SyntaxError" "Unexpected token <"
                                None)))
                eq_refl eq_refl eq_refl)
      as (t & Htoasts & _ & Ht & Hd & _).
    exists t.
    split; [exact Htoasts|]. split; [exact Ht|].
    apply Hd; [discriminate | reflexivity].
Defined.

(** X21 for a backend that cannot be reached. *)
Lemma page_reports_unreachable_backend_witness :
  let s' :=
    after (handleSubmit always_valid
             (discover_through_route node backend_unreachable)
             "https://docs.example.com" (of_Z 7)) discovered in
  discoveredPages s' = [] /\
  exists t1 t2,
    toasts s' = [t1; t2] /\
    title t1 = "Error: TypeError" /\ description t1 = "fetch failed".
Proof.
  destruct (page_reports_unreachable_backend node always_valid
              backend_unreachable "https://docs.example.com" (of_Z 7) 5%Z
              discovered "TypeError" "fetch failed" None eq_refl)
    as (Hpages & _ & t1 & t2 & Htoasts & _ & _ & Ht1 & Hd1).
  - discriminate.
  - reflexivity.
  - reflexivity.
  - split; [exact Hpages|]. exists t1, t2.
    split; [exact Htoasts|]. split; [exact Ht1 | exact Hd1].
Defined.

(** X22 for a backend that answers 503 without an [error], for one that
    answers with status 600, and for one whose body is not JSON. *)
Lemma page_reports_backend_error_witness :
  let first_toast backend :=
    nth_error
      (toasts (after (handleSubmit always_valid
                        (discover_through_route node backend)
                        "https://docs.example.com" (of_Z 7)) initial)) 0 in
  option_map title (first_toast backend_unavailable)
    = Some "Error: Unknown" /\
  option_map description (first_toast backend_unavailable)
    = Some "Failed to discover pages" /\
  option_map title (first_toast backend_status_600)
    = Some "Error: RangeError" /\
  option_map title (first_toast backend_unreadable)
    = Some "Error: SyntaxError".
Proof.
  cbv zeta.
  destruct (page_reports_backend_error node always_valid backend_unavailable
              "https://docs.example.com" (of_Z 7) 5%Z initial
              (mkBackendResponse 503
                 (Resolved (mkBackendData None None None)))
              eq_refl)
    as (_ & _ & t1 & t2 & Htoasts & _ & _ & Hmirror & _);
    [discriminate | reflexivity | reflexivity | reflexivity |].
  destruct Hmirror as [Ht1 Hd1]; [split; [split|]; discriminate|].
  destruct (page_reports_backend_error node always_valid backend_status_600
              "https://docs.example.com" (of_Z 7) 5%Z initial
              (mkBackendResponse 600
                 (Resolved (mkBackendData (Some "overloaded") None None)))
              eq_refl)
    as (_ & _ & u1 & u2 & Htoasts' & _ & _ & _ & _ & Hout);
    [discriminate | reflexivity | reflexivity | reflexivity |].
  destruct Hout as [Hu1 _]; [right; reflexivity|].
  destruct (page_reports_backend_error node always_valid backend_unreadable
              "https://docs.example.com" (of_Z 7) 5%Z initial
              (mkBackendResponse 502
                 (Rejected (ErrorObject "SyntaxError" "Unexpected token <"
                              None)))
              eq_refl)
    as (_ & _ & v1 & v2 & Htoasts'' & _ & _ & Hv1 & _);
    [discriminate | reflexivity | reflexivity | reflexivity |].
  rewrite Htoasts, Htoasts', Htoasts''. cbn [nth_error Datatypes.app toasts initial option_map].
  rewrite Ht1, Hd1, Hu1, Hv1. repeat split.
Defined.

(** X23 for a backend that finds three pages, asked with depth 7. *)
Lemma page_installs_backend_pages_witness :
  let s' :=
    after (handleSubmit always_valid
             (discover_through_route node backend_finds_three)
             "https://docs.example.com" (of_Z 7)) discovered in
  discoveredPages s' = [page_a; page_e; page_c] /\
  subdomainsParsed (stats s') = 3.
Proof.
  destruct (page_installs_backend_pages node always_valid backend_finds_three
              "https://docs.example.com" (of_Z 7) 5%Z discovered
              (mkBackendResponse 200
                 (Resolved (mkBackendData None
                              (Some [page_a; page_e; page_c]) None)))
              (mkBackendData None (Some [page_a; page_e; page_c]) None)
              eq_refl)
    as (Hpages & Hcount & _); try reflexivity.
  - discriminate.
  - split; [exact Hpages | exact Hcount].
Defined.
